(** * News analyzer: crawl frontier, extraction chain, scraper cache and
      the relevance / summarisation stages

    A shallow embedding of [backend/utils/trafilatura_spider.py] and
    [backend/utils/llm_functions.py].

    Conventions of the embedding.
    - A Python [str] is a [string]; every [ascii] is one character, so
      [String.length] is [len].  URLs and article text are taken to be
      ASCII: case folding, [\d] and whitespace are the ASCII ones.
    - Library calls whose code is not part of the repository
      ([urlparse], [response.css], [trafilatura.extract], the spider
      subprocess, [llm.invoke]) are inputs of the model: fields of the
      page that is parsed, or oracles that are indexed by the calls
      already made.
    - Code that raises returns [Raise]; generators return the list of the
      requests they yield together with the state they leave behind. *)

From Stdlib Require Import Ascii.
From Stdlib Require OrderedTypeEx.
From stdpp Require Import gmap strings list sorting pretty.

Open Scope string_scope.
Open Scope list_scope.

Set Warnings "-clear-no-such-hyp".

(** ** Python string primitives *)

Module Py.

Definition is_upper (a : ascii) : bool :=
  (65 <=? N_of_ascii a)%N && (N_of_ascii a <=? 90)%N.

Definition is_lower (a : ascii) : bool :=
  (97 <=? N_of_ascii a)%N && (N_of_ascii a <=? 122)%N.

Definition is_digit (a : ascii) : bool :=
  (48 <=? N_of_ascii a)%N && (N_of_ascii a <=? 57)%N.

Definition is_alpha (a : ascii) : bool := is_upper a || is_lower a.

(** [str.isspace] on ASCII: tab, newline, vertical tab, form feed,
    carriage return, the four separators 28..31 and the space. *)
Definition is_space (a : ascii) : bool :=
  let n := N_of_ascii a in
  ((9 <=? n)%N && (n <=? 13)%N) || ((28 <=? n)%N && (n <=? 32)%N).

Definition lower_char (a : ascii) : ascii :=
  if is_upper a then ascii_of_N (N_of_ascii a + 32) else a.

(** [s.lower()] *)
Fixpoint lower (s : string) : string :=
  match s with
  | EmptyString => EmptyString
  | String a s' => String (lower_char a) (lower s')
  end.

(** [s[:n]] *)
Fixpoint take (n : nat) (s : string) : string :=
  match n, s with
  | S n', String a s' => String a (take n' s')
  | _, _ => EmptyString
  end.

(** [s[n:]] *)
Fixpoint drop (n : nat) (s : string) : string :=
  match n, s with
  | S n', String _ s' => drop n' s'
  | _, _ => s
  end.

Fixpoint lstrip (s : string) : string :=
  match s with
  | String a s' => if is_space a then lstrip s' else s
  | EmptyString => EmptyString
  end.

Fixpoint rstrip (s : string) : string :=
  match s with
  | EmptyString => EmptyString
  | String a s' =>
      match rstrip s' with
      | EmptyString => if is_space a then EmptyString else String a EmptyString
      | r => String a r
      end
  end.

(** [s.strip()] *)
Definition strip (s : string) : string := rstrip (lstrip s).

(** [s.startswith(p)] *)
Definition startswith (p s : string) : bool := String.prefix p s.

(** [p in s] *)
Fixpoint contains (p s : string) : bool :=
  if String.prefix p s then true
  else match s with
       | EmptyString => false
       | String _ s' => contains p s'
       end.

(** [s.split(c)] for a one-character separator: never the empty list. *)
Fixpoint split (c : ascii) (s : string) : list string :=
  match s with
  | EmptyString => [EmptyString]
  | String a s' =>
      if Ascii.eqb a c then EmptyString :: split c s'
      else match split c s' with
           | w :: ws => String a w :: ws
           | [] => [String a EmptyString]
           end
  end.

(** [sep.join(l)] *)
Fixpoint join (sep : string) (l : list string) : string :=
  match l with
  | [] => EmptyString
  | [w] => w
  | w :: ws => w +:+ sep +:+ join sep ws
  end.

(** [c * n] *)
Fixpoint repeat_char (c : ascii) (n : nat) : string :=
  match n with
  | O => EmptyString
  | S n' => String c (repeat_char c n')
  end.

Definition newline : ascii := ascii_of_N 10.
Definition nl : string := String newline EmptyString.

(** Truthiness of a string, and of a list. *)
Definition truthy (s : string) : bool :=
  match s with EmptyString => false | _ => true end.

Definition truthy_list {A : Type} (l : list A) : bool :=
  match l with [] => false | _ => true end.

(** [s.replace(old, new)] for a non-empty [old]: the occurrences are
    replaced from left to right, without overlap; [skip] characters of a
    replaced occurrence are still to be passed over. *)
Fixpoint replace_from (old new : string) (skip : nat) (s : string) : string :=
  match s with
  | EmptyString => EmptyString
  | String a s' =>
      match skip with
      | S k => replace_from old new k s'
      | O =>
          if String.prefix old s
          then new +:+ replace_from old new (String.length old - 1) s'
          else String a (replace_from old new 0 s')
      end
  end.

Definition replace (old new s : string) : string := replace_from old new 0 s.

(** [s.endswith(p)] *)
Fixpoint endswith (p s : string) : bool :=
  if String.eqb p s then true
  else match s with
       | EmptyString => false
       | String _ s' => endswith p s'
       end.

End Py.

(** ** The fragment of [re] used by the spider

    Every pattern of the spider is a sequence of literal characters,
    [\d], [\d+], [[a-z-]+] and a final [$]; all are searched with
    [re.IGNORECASE].  The matcher below is the one of [re] on ASCII
    subjects.  On a [str] with other characters Python also folds a few
    of them onto ASCII letters (U+0130, U+017F, U+212A) and lets [\d]
    match every decimal digit; such subjects are outside the model. *)

Module Re.

Inductive cls : Type :=
| Chr (c : ascii)      (* a literal character *)
| DigitC               (* \d *)
| SlugC.               (* [a-z-] *)

Inductive atom : Type :=
| One (c : cls)        (* c *)
| Many (c : cls)       (* c+ *)
| AtEnd.               (* $ *)

Definition pattern := list atom.

(** Case-insensitive membership of a character in a class. *)
Definition cls_match (c : cls) (a : ascii) : bool :=
  match c with
  | Chr x => Ascii.eqb (Py.lower_char a) (Py.lower_char x)
  | DigitC => Py.is_digit a
  | SlugC => Py.is_alpha a || Ascii.eqb a "-"%char
  end.

(** [$] without [re.MULTILINE]: the end of the string, or just before a
    newline that ends the string. *)
Definition at_end (s : string) : bool :=
  match s with
  | EmptyString => true
  | String a EmptyString => Ascii.eqb a Py.newline
  | _ => false
  end.

(** Does the pattern match a prefix of [s]? *)
Fixpoint match_here (p : pattern) (s : string) {struct p} : bool :=
  match p with
  | [] => true
  | One c :: p' =>
      match s with
      | String a s' => if cls_match c a then match_here p' s' else false
      | EmptyString => false
      end
  | Many c :: p' =>
      (fix many (s : string) : bool :=
         match s with
         | String a s' =>
             if cls_match c a
             then (if match_here p' s' then true else many s')
             else false
         | EmptyString => false
         end) s
  | AtEnd :: p' => if at_end s then match_here p' s else false
  end.

(** [re.search(p, s, re.IGNORECASE) is not None] *)
Fixpoint search (p : pattern) (s : string) : bool :=
  if match_here p s then true
  else match s with
       | EmptyString => false
       | String _ s' => search p s'
       end.

Fixpoint lit (s : string) : pattern :=
  match s with
  | EmptyString => []
  | String a s' => One (Chr a) :: lit s'
  end.

Definition digit : pattern := [One DigitC].
Definition digits : pattern := [Many DigitC].
Definition rep (n : nat) (p : pattern) : pattern := concat (replicate n p).

(** [for pattern in patterns: if re.search(pattern, url, re.IGNORECASE)] *)
Fixpoint any_search (ps : list pattern) (s : string) : bool :=
  match ps with
  | [] => false
  | p :: ps' => if search p s then true else any_search ps' s
  end.

End Re.

(** ** Articles, as the spider writes them and the pipeline reads them *)

Record Article : Type := mkArticle {
  art_url : string;
  art_title : option string;          (* [None] is JSON null *)
  art_content : string;
  art_publish_date : option string;
  art_domain : string;
  art_extraction_method : string
}.

(** ** The spider: [trafilatura_spider.py] *)

Module Spider.

Import Re.

(** The list shared by [is_likely_article_url] and [is_internal_link]. *)
Definition skip_patterns : list pattern :=
  [ lit "/login"; lit "/signup"; lit "/subscribe"; lit "/advertise";
    lit "/contact"; lit "/about"; lit "/privacy"; lit "/terms";
    lit "/cookie"; lit "/sitemap"; lit "/search"; lit "/tag/";
    lit "/category/"; lit "/author/"; lit "/user/";
    lit ".pdf" ++ [AtEnd]; lit ".jpg" ++ [AtEnd]; lit ".png" ++ [AtEnd];
    lit ".gif" ++ [AtEnd]; lit ".mp4" ++ [AtEnd]; lit ".mp3" ++ [AtEnd];
    lit "/video/"; lit "/gallery/"; lit "/slideshow/";
    lit "/interactive/"; lit "/newsletter"; lit "/rss"; lit "/feed";
    lit "/api/"; lit "/ajax/"; lit "#"; lit "?utm_"; lit "?fbclid";
    lit "?ref="; lit "?source=" ].

Definition article_patterns : list pattern :=
  [ lit "/article/"; lit "/story/"; lit "/news/"; lit "/business/";
    lit "/finance/"; lit "/markets/"; lit "/economy/";
    lit "/technology/"; lit "/earnings/"; lit "/analysis/";
    lit "/commentary/"; lit "/opinion/"; lit "/report/";
    rep 4 digit ++ lit "/" ++ rep 2 digit ++ lit "/" ++ rep 2 digit;
    rep 4 digit ++ lit "-" ++ rep 2 digit ++ lit "-" ++ rep 2 digit;
    [Many SlugC] ++ lit "-" ++ digits ].

Definition category_patterns : list pattern :=
  [ lit "/business/"; lit "/finance/"; lit "/markets/"; lit "/economy/";
    lit "/technology/"; lit "/news/"; lit "/world/"; lit "/politics/";
    lit "/opinion/"; lit "/analysis/"; lit "/earnings/"; lit "/stocks/";
    lit "/commodities/"; lit "/currencies/"; lit "/cryptocurrency/";
    lit "/crypto/"; lit "/blockchain/"; lit "/ai/";
    lit "/artificial-intelligence/"; lit "/startups/";
    lit "/venture-capital/"; lit "/ipo/"; lit "/mergers/";
    lit "/acquisitions/"; lit "/regulation/"; lit "/policy/";
    lit "/trade/"; lit "/tariffs/"; lit "/inflation/";
    lit "/interest-rates/"; lit "/federal-reserve/";
    lit "/central-bank/"; lit "/monetary-policy/" ].

Definition pagination_patterns : list pattern :=
  [ lit "/page/" ++ digits; lit "/p/" ++ digits; lit "/page" ++ digits;
    lit "/p" ++ digits; lit "?page=" ++ digits; lit "&page=" ++ digits;
    lit "?p=" ++ digits; lit "&p=" ++ digits;
    lit "/news/page/" ++ digits; lit "/business/page/" ++ digits;
    lit "/technology/page/" ++ digits; lit "/finance/page/" ++ digits;
    lit "/markets/page/" ++ digits; lit "/economy/page/" ++ digits;
    lit "page=" ++ digits; lit "p=" ++ digits; lit "offset=" ++ digits;
    lit "start=" ++ digits ].

(** The five outcomes of the [if]/[elif] chain of [parse]. *)
Inductive LinkKind : Type :=
| KArticle | KCategory | KPagination | KInternalNav | KReject.

#[global] Instance LinkKind_eq_dec : EqDecision LinkKind.
Proof. solve_decision. Defined.

Inductive Callback : Type := CbParse | CbParseArticle.

#[global] Instance Callback_eq_dec : EqDecision Callback.
Proof. solve_decision. Defined.

(** [req_url] is the [url] argument of [scrapy.Request]; the attribute
    that Scrapy keeps is this string after its own escaping. *)
Record Request : Type := mkRequest {
  req_url : string;
  req_callback : Callback;
  req_domain : option string;      (* meta['domain'], absent on seeds *)
  req_depth : nat                  (* meta['depth'] *)
}.

(** A fetched page as [parse] sees it: its URL, [meta.get('depth', 0)]
    and the non-empty hrefs of the CSS queries of [extract_links],
    already joined to the page URL by [urljoin], in the order the set
    iterates. *)
Record Response : Type := mkResponse {
  resp_url : string;
  resp_depth : nat;
  resp_hrefs : list string
}.

Record State : Type := mkState {
  articles : list Article;
  max_articles_per_source : nat;
  max_age_days : Z;
  max_depth : nat;
  max_pages_per_source : nat;
  site_article_count : gmap string nat;
  site_page_count : gmap string nat;
  processed_urls : gset string;
  crawl_depth : gmap string nat
}.

(** [__init__] *)
Definition init : State :=
  {| articles := [];
     max_articles_per_source := 50;
     max_age_days := 7;
     max_depth := 3;
     max_pages_per_source := 10;
     site_article_count := ∅;
     site_page_count := ∅;
     processed_urls := ∅;
     crawl_depth := ∅ |}.

Definition set_processed (f : gset string → gset string) (st : State) : State :=
  {| articles := articles st;
     max_articles_per_source := max_articles_per_source st;
     max_age_days := max_age_days st;
     max_depth := max_depth st;
     max_pages_per_source := max_pages_per_source st;
     site_article_count := site_article_count st;
     site_page_count := site_page_count st;
     processed_urls := f (processed_urls st);
     crawl_depth := crawl_depth st |}.

Definition set_articles (f : list Article → list Article) (st : State) : State :=
  {| articles := f (articles st);
     max_articles_per_source := max_articles_per_source st;
     max_age_days := max_age_days st;
     max_depth := max_depth st;
     max_pages_per_source := max_pages_per_source st;
     site_article_count := site_article_count st;
     site_page_count := site_page_count st;
     processed_urls := processed_urls st;
     crawl_depth := crawl_depth st |}.

(** [d.setdefault(k, 0)] *)
Definition setdefault0 (k : string) (m : gmap string nat) : gmap string nat :=
  match m !! k with
  | Some _ => m
  | None => <[k := 0]> m
  end.

(** The bookkeeping at the head of [parse]: both counters get their
    default, the depth is stored and the page count is incremented. *)
Definition enter_page (domain : string) (depth : nat) (st : State) : State :=
  {| articles := articles st;
     max_articles_per_source := max_articles_per_source st;
     max_age_days := max_age_days st;
     max_depth := max_depth st;
     max_pages_per_source := max_pages_per_source st;
     site_article_count := setdefault0 domain (site_article_count st);
     site_page_count :=
       <[domain := S (default 0 (site_page_count st !! domain))]>
         (site_page_count st);
     processed_urls := processed_urls st;
     crawl_depth := <[domain := depth]> (crawl_depth st) |}.

Section WithUrlparse.

(** [urlparse(url).netloc]; [None] when [urlparse] raises. *)
Variable netloc : string → option string.

(** The host test shared by [is_valid_url] and [is_internal_link];
    the [except] clause answers [False]. *)
Definition same_site (url domain : string) : bool :=
  match netloc url with
  | Some host =>
      if String.eqb host domain then true
      else if Py.endswith ("." +:+ domain) host then true
      else Py.endswith ("." +:+ host) domain
  | None => false
  end.

Definition is_valid_url (url domain : string) : bool := same_site url domain.

Definition is_category_page (url domain : string) : bool :=
  any_search category_patterns url.

Definition is_likely_article_url (url domain : string) : bool :=
  if any_search skip_patterns url then false
  else if any_search article_patterns url then true
  else (50 <? String.length url)%nat.

Definition is_pagination_link (url domain : string) : bool :=
  any_search pagination_patterns url.

Definition is_internal_link (url domain : string) : bool :=
  if any_search skip_patterns url then false
  else same_site url domain.

(** The [if]/[elif] chain of the link loop of [parse]; a link that
    takes no branch is dropped. *)
Definition classify (url domain : string) : LinkKind :=
  if is_likely_article_url url domain then KArticle
  else if is_category_page url domain then KCategory
  else if is_pagination_link url domain then KPagination
  else if is_internal_link url domain then KInternalNav
  else KReject.

(** [extract_links]: the valid hrefs without duplicates.  The order of
    [list(set(...))] is the one in which the page lists them here. *)
Definition extract_links (r : Response) (domain : string) : list string :=
  remove_dups (filter (λ l, is_valid_url l domain = true) (resp_hrefs r)).

(** What the link loop of [parse] leaves behind: the article links it
    requested, in order, and the three lists it filled. *)
Record LinkScan : Type := mkScan {
  scan_articles : list string;
  scan_category : list string;
  scan_pagination : list string;
  scan_internal : list string
}.

Definition scan_nil : LinkScan := mkScan [] [] [] [].

Definition scan_add (k : LinkKind) (link : string) (sc : LinkScan) : LinkScan :=
  match k with
  | KArticle =>
      mkScan (link :: scan_articles sc) (scan_category sc)
             (scan_pagination sc) (scan_internal sc)
  | KCategory =>
      mkScan (scan_articles sc) (link :: scan_category sc)
             (scan_pagination sc) (scan_internal sc)
  | KPagination =>
      mkScan (scan_articles sc) (scan_category sc)
             (link :: scan_pagination sc) (scan_internal sc)
  | KInternalNav =>
      mkScan (scan_articles sc) (scan_category sc)
             (scan_pagination sc) (link :: scan_internal sc)
  | KReject => sc
  end.

(** The outcome of the loop that holds the links of one kind; a rejected
    link is in none. *)
Definition scan_of (k : LinkKind) (sc : LinkScan) : list string :=
  match k with
  | KArticle => scan_articles sc
  | KCategory => scan_category sc
  | KPagination => scan_pagination sc
  | KInternalNav => scan_internal sc
  | KReject => []
  end.

(** [for link in links]: the loop breaks once the local
    [article_count] has reached [max_articles_per_source]. *)
Fixpoint scan_links (max_articles : nat) (domain : string)
    (article_count : nat) (links : list string) : LinkScan :=
  match links with
  | [] => scan_nil
  | link :: rest =>
      if (max_articles <=? article_count)%nat then scan_nil
      else
        let k := classify link domain in
        let count' :=
          match k with KArticle => S article_count | _ => article_count end in
        scan_add k link (scan_links max_articles domain count' rest)
  end.

(** One of the three follow-up loops: a link is requested, and
    recorded, only when [processed_urls] does not hold it yet. *)
Fixpoint follow_links (domain : string) (depth : nat)
    (links : list string) (seen : gset string)
  : list Request * gset string :=
  match links with
  | [] => ([], seen)
  | l :: rest =>
      if decide (l ∈ seen) then follow_links domain depth rest seen
      else
        let '(rs, seen') := follow_links domain depth rest ({[l]} ∪ seen) in
        (mkRequest l CbParse (Some domain) (S depth) :: rs, seen')
  end.

(** [if links and current_depth < self.max_depth: for l in links[:cap]] *)
Definition follow (cap : nat) (domain : string) (depth max_d : nat)
    (links : list string) (seen : gset string)
  : list Request * gset string :=
  match links with
  | [] => ([], seen)
  | _ =>
      if (depth <? max_d)%nat
      then follow_links domain depth (take cap links) seen
      else ([], seen)
  end.

(** [parse]: the requests it yields, in order, and the state after it.
    When [urlparse] raises in [get_domain] nothing has happened yet. *)
Definition parse (r : Response) (st : State) : list Request * State :=
  match netloc (resp_url r) with
  | None => ([], st)
  | Some domain =>
      let depth := resp_depth r in
      let st1 := enter_page domain depth st in
      if (max_pages_per_source st1
            <? default 0 (site_page_count st1 !! domain))%nat
      then ([], st1)
      else
        let links := extract_links r domain in
        let sc := scan_links (max_articles_per_source st1) domain 0 links in
        let article_reqs :=
          map (λ l, mkRequest l CbParseArticle (Some domain) depth)
              (scan_articles sc) in
        let '(r1, seen1) :=
          follow 3 domain depth (max_depth st1) (scan_category sc)
                 (processed_urls st1) in
        let '(r2, seen2) :=
          follow 2 domain depth (max_depth st1) (scan_pagination sc) seen1 in
        let '(r3, seen3) :=
          follow 2 domain depth (max_depth st1) (scan_internal sc) seen2 in
        (article_reqs ++ r1 ++ r2 ++ r3, set_processed (λ _, seen3) st1)
  end.

End WithUrlparse.

(** [start_requests], on the list of URLs it has settled on: a scheme is
    added, the URL is stripped, short ones are skipped. *)
Definition normalize_seed (url : string) : string :=
  Py.strip
    (if Py.startswith "http://" url || Py.startswith "https://" url
     then url else "https://" +:+ url).

Section WithRequest.

(** Whether [scrapy.Request(url=url, ...)] can be built: the constructor
    raises on a URL it cannot accept. *)
Variable request_builds : string → bool.

(** The body of the loop is a [try]: the URL is first added to
    [processed_urls], then the request is built and yielded; when the
    constructor raises, the [except] clause logs, nothing is yielded for
    that seed, and the URL stays recorded.  [req_url] is the string given
    to the constructor. *)
Fixpoint start_requests (urls : list string) (st : State)
  : list Request * State :=
  match urls with
  | [] => ([], st)
  | u :: rest =>
      let url := normalize_seed u in
      if negb (Py.truthy url) || (String.length url <? 10)%nat
      then start_requests rest st
      else
        let '(rs, st') :=
          start_requests rest (set_processed (λ s, {[url]} ∪ s) st) in
        if request_builds url
        then (mkRequest url CbParse None 0 :: rs, st')
        else (rs, st')
  end.

End WithRequest.

(** The URLs [start_requests] iterates over: the sources given to the
    spider, else the content of the sources file ([None] when it cannot
    be read, and then nothing is requested). *)
Definition seed_urls (sources_to_scrape : list string)
    (sources_file : option (list string)) : list string :=
  match sources_to_scrape with
  | [] => default [] sources_file
  | _ => sources_to_scrape
  end.

(** *** Article pages *)

Inductive Tier : Type := TierTrafilatura | TierCss | TierBasicText.

#[global] Instance Tier_eq_dec : EqDecision Tier.
Proof. solve_decision. Defined.

(** What [parse_article] reads from a fetched article page. *)
Record ArticlePage : Type := mkPage {
  page_url : string;
  page_domain : option string;            (* meta.get('domain') *)
  page_trafilatura : option string;       (* trafilatura.extract, None on failure *)
  page_css : string → option string;      (* response.css(selector).get() *)
  page_date_iso : string;                 (* extract_publish_date(...).isoformat() *)
  page_days_old : option Z                (* (now - publish_date).days; None: it raises *)
}.

Definition dq : string := String (ascii_of_N 34) EmptyString.

Definition css_selectors : list string :=
  [ "article"; ".article-content"; ".story-content"; ".post-content";
    ".entry-content"; ".content-body"; ".article-body"; ".story-body";
    "[data-testid=" +:+ dq +:+ "article-content" +:+ dq +:+ "]";
    ".article__content"; ".story__content"; ".post__content" ].

Definition title_selectors : list string :=
  [ "h1"; ".article-title"; ".story-title"; ".post-title"; ".entry-title";
    "[data-testid=" +:+ dq +:+ "article-title" +:+ dq +:+ "]"; "title" ].

(** [not content or len(content.strip()) < 100] *)
Definition too_short (content : option string) : bool :=
  match content with
  | None => true
  | Some c => negb (Py.truthy c) || (String.length (Py.strip c) <? 100)%nat
  end.

Fixpoint first_css (page : ArticlePage) (selectors : list string) : option string :=
  match selectors with
  | [] => None
  | sel :: rest =>
      match page_css page sel with
      | Some c =>
          if Py.truthy c && (100 <? String.length (Py.strip c))%nat
          then Some c else first_css page rest
      | None => first_css page rest
      end
  end.

Definition extract_with_css (page : ArticlePage) : option string :=
  first_css page css_selectors.

Section WithMarkup.

(** The three [re.sub] that delete scripts, styles and tags, then the
    whitespace collapse and [strip], of [extract_basic_text]. *)
Variable strip_markup : string → string.

Definition extract_basic_text (page : ArticlePage) : option string :=
  match page_css page "body" with
  | Some text =>
      if Py.truthy text
      then let t := strip_markup text in
           if (100 <? String.length t)%nat then Some t else None
      else None
  | None => None
  end.

Fixpoint first_title (page : ArticlePage) (selectors : list string) : option string :=
  match selectors with
  | [] => None
  | sel :: rest =>
      match page_css page (sel +:+ "::text") with
      | Some t =>
          if Py.truthy t && (5 <? String.length (Py.strip t))%nat
          then Some (Py.strip t) else first_title page rest
      | None => first_title page rest
      end
  end.

Definition extract_title (page : ArticlePage) : option string :=
  first_title page title_selectors.

(** The fallback chain of [parse_article]: the content it ends with and
    the tiers it ran, in order. *)
Definition extract_content (page : ArticlePage) : option string * list Tier :=
  let c1 := page_trafilatura page in
  if too_short c1 then
    let c2 := extract_with_css page in
    if too_short c2 then (extract_basic_text page,
                          [TierTrafilatura; TierCss; TierBasicText])
    else (c2, [TierTrafilatura; TierCss])
  else (c1, [TierTrafilatura]).

(** [parse_article]: the state after it and the tiers it ran.  When the
    age computation raises, nothing is appended. *)
Definition parse_article (page : ArticlePage) (st : State) : State * list Tier :=
  let '(content, tiers) := extract_content page in
  match content with
  | Some c =>
      if Py.truthy c && (100 <? String.length (Py.strip c))%nat then
        match page_days_old page with
        | Some days =>
            if (days <=? max_age_days st)%Z then
              (set_articles
                 (λ l, l ++ [ {| art_url := page_url page;
                                 art_title := extract_title page;
                                 art_content := c;
                                 art_publish_date := Some (page_date_iso page);
                                 art_domain := default "" (page_domain page);
                                 art_extraction_method := "trafilatura" |} ])
                 st, tiers)
            else (st, tiers)
        | None => (st, tiers)
        end
      else (st, tiers)
  | None => (st, tiers)
  end.

End WithMarkup.

End Spider.

(** ** A page-by-page account of a crawl *)

Module Crawl.

Import Spider.

(** A model of [urlparse(url).netloc] for the concrete runs below: the
    text between the [//] that follows the scheme and the next [/], [?]
    or [#]; a bracket without its partner raises. *)
Definition is_scheme_char (a : ascii) : bool :=
  Py.is_alpha a || Py.is_digit a
  || Ascii.eqb a "+"%char || Ascii.eqb a "-"%char || Ascii.eqb a "."%char.

Fixpoint after_scheme (s : string) : option string :=
  match s with
  | EmptyString => None
  | String a s' =>
      if Ascii.eqb a ":"%char then Some s'
      else if is_scheme_char a then after_scheme s' else None
  end.

Fixpoint until_delim (s : string) : string :=
  match s with
  | EmptyString => EmptyString
  | String a s' =>
      if Ascii.eqb a "/"%char || Ascii.eqb a "?"%char || Ascii.eqb a "#"%char
      then EmptyString else String a (until_delim s')
  end.

Definition netloc (url : string) : option string :=
  let rest :=
    match url with
    | String a _ =>
        if Py.is_alpha a then default url (after_scheme url) else url
    | EmptyString => url
    end in
  if Py.startswith "//" rest then
    let host := until_delim (Py.drop 2 rest) in
    if xorb (Py.contains "[" host) (Py.contains "]" host) then None
    else Some host
  else Some EmptyString.

Section Run.

Variable netloc : string → option string.
Variable request_builds : string → bool.

(** The pages handed to [parse], in the order the engine delivers
    them: all the requests yielded, and the state at the end. *)
Fixpoint run (pages : list Response) (st : State) : list Request * State :=
  match pages with
  | [] => ([], st)
  | r :: rest =>
      let '(rq, st1) := parse netloc r st in
      let '(rqs, st2) := run rest st1 in
      (rq ++ rqs, st2)
  end.

(** A whole crawl: the seeds, then the pages. *)
Definition crawl (seeds : list string) (pages : list Response)
  : list Request * State :=
  let '(r0, st0) := start_requests request_builds seeds init in
  let '(r1, st1) := run pages st0 in
  (r0 ++ r1, st1).

End Run.

(** The article requests issued for one domain. *)
Definition article_requests (domain : string) (rs : list Request) : list Request :=
  filter (λ r, req_callback r = CbParseArticle ∧ req_domain r = Some domain) rs.

(** [site_page_count[domain]], 0 while the key is absent. *)
Definition pages_seen (st : State) (domain : string) : nat :=
  default 0 (site_page_count st !! domain).

(** The requests issued for one URL. *)
Definition requests_for (url : string) (rs : list Request) : list Request :=
  filter (λ r, req_url r = url) rs.

(** The follow-up page requests ([callback=self.parse] with a domain in
    their meta: category, pagination and internal links). *)
Definition is_followup (r : Request) : Prop :=
  req_callback r = CbParse ∧ is_Some (req_domain r).

#[global] Instance is_followup_dec r : Decision (is_followup r).
Proof. unfold is_followup. apply _. Defined.

Definition followup_urls (rs : list Request) : list string :=
  req_url <$> filter is_followup rs.

End Crawl.

(** ** The scraper and its cache: [run_scraper], [clear_scraper_cache] *)

Inductive Result (A : Type) : Type :=
| Return (a : A)
| Raise.
Arguments Return {A} a.
Arguments Raise {A}.

Module Scraper.

(** The order of [sorted] on strings. *)
Definition str_le (s1 s2 : string) : Prop := String.leb s1 s2 = true.

#[global] Instance str_le_dec : RelDecision str_le.
Proof. intros s1 s2. unfold str_le. apply _. Defined.

(** [tuple(sorted(sources))] *)
Definition cache_key (sources : list string) : list string :=
  merge_sort str_le sources.

(** What running the spider subprocess and reading [tmp/output.json]
    comes to. *)
Inductive Outcome : Type :=
| LaunchRaised                       (* [subprocess.run] raises *)
| OutputMissing                      (* FileNotFoundError *)
| OutputInvalid                      (* json.JSONDecodeError *)
| OutputRaised                       (* any other exception of open / json.load *)
| OutputLoaded (arts : list Article).

(** The process-wide state: the [_cache] attribute of [run_scraper]
    ([None] while the attribute does not exist) and the source lists the
    spider was launched with so far. *)
Record Env : Type := mkEnv {
  cache : option (gmap (list string) (list Article));
  launches : list (list string)
}.

Definition clear_scraper_cache (e : Env) : Env :=
  {| cache := (λ _, ∅) <$> cache e; launches := launches e |}.

Definition cache_lookup (key : list string) (e : Env) : option (list Article) :=
  cache e ≫= (λ m, m !! key).

Definition cache_store (key : list string) (arts : list Article) (e : Env) : Env :=
  {| cache := Some (<[key := arts]> (default ∅ (cache e)));
     launches := launches e |}.

Definition launch (sources : list string) (e : Env) : Env :=
  {| cache := cache e; launches := launches e ++ [sources] |}.

Section WithSpider.

(** The spider as the scraper sees it: from the launches made so far,
    the current one included, to the outcome of the current one. *)
Variable spider : list (list string) → Outcome.

Definition run_scraper (sources : list string) (force_fresh : bool) (e : Env)
  : Result (list Article) * Env :=
  let e1 := if force_fresh then clear_scraper_cache e else e in
  let key := cache_key sources in
  match cache_lookup key e1 with
  | Some arts => (Return arts, e1)
  | None =>
      let e2 := launch sources e1 in
      match spider (launches e2) with
      | LaunchRaised | OutputRaised => (Raise, e2)
      | OutputMissing | OutputInvalid => (Return [], cache_store key [] e2)
      | OutputLoaded arts => (Return arts, cache_store key arts e2)
      end
  end.

(** A sequence of calls, each with its own flag; the environment after
    the last one. *)
Fixpoint run_many (calls : list (list string * bool)) (e : Env) : Env :=
  match calls with
  | [] => e
  | (s, f) :: rest => run_many rest (run_scraper s f e).2
  end.

End WithSpider.

End Scraper.

(** ** The pipeline stages: [llm_functions.py] *)

Module Pipeline.

Definition BATCH_SIZE : nat := 5.

(** What [llm.invoke] comes to: it raises, or it returns a message with
    a [content]; [is_ai] tells whether the message is an [AIMessage]. *)
Inductive Reply : Type :=
| Raised
| Replied (is_ai : bool) (content : string).

(** A collaborator call, by the parts of its prompt that vary: the
    business interest and the batch text of a relevance call, the title
    and the first 2000 characters of a summary call. *)
Inductive Call : Type :=
| RelevanceCall (business_interest articles_text : string)
| SummaryCall (title content : string).

#[global] Instance Call_eq_dec : EqDecision Call.
Proof. solve_decision. Defined.

Record MyState : Type := mkMyState {
  business_interest : string;
  sources : list string;
  st_articles : list Article;
  relevant_articles : list Article;
  summary : string;
  force_fresh : option bool          (* absent unless the caller sets it *)
}.

(** How an f-string prints a title that may be [None]. *)
Definition fmt_opt (o : option string) : string := default "None" o.

(** *** [pre_filter_articles] *)

Definition mentions (keywords : list string) (title lead : string) : bool :=
  existsb (λ k, Py.contains k title || Py.contains k lead) keywords.

Definition geographic_keywords (bi : string) : list string :=
  (if Py.contains "qatar" bi
   then ["qatar"; "doha"; "gulf"; "middle east"] else [])
  ++ (if Py.contains "usa" bi || Py.contains "united states" bi
      then ["usa"; "united states"; "america"; "american"] else [])
  ++ (if Py.contains "uk" bi || Py.contains "britain" bi
      then ["uk"; "britain"; "england"; "london"] else [])
  ++ (if Py.contains "china" bi
      then ["china"; "chinese"; "beijing"; "shanghai"] else []).

Definition topic_keywords (bi : string) : list string :=
  (if Py.contains "economy" bi || Py.contains "economic" bi
   then ["economy"; "economic"; "finance"; "financial"; "business"; "market"]
   else [])
  ++ (if Py.contains "politics" bi || Py.contains "political" bi
      then ["politics"; "political"; "government"; "policy"] else [])
  ++ (if Py.contains "technology" bi || Py.contains "tech" bi
      then ["technology"; "tech"; "digital"; "innovation"] else []).

Definition sports_keywords : list string :=
  ["football"; "soccer"; "basketball"; "tennis"; "golf"; "sport"; "match";
   "game"; "player"; "team"].

Definition entertainment_keywords : list string :=
  ["movie"; "film"; "celebrity"; "actor"; "actress"; "music"; "concert";
   "show"].

(** The body of the article loop once title and content are lowered. *)
Definition keeps (geo topic : list string) (bi_lower title content : string) : bool :=
  let is_sports := mentions sports_keywords title (Py.take 200 content) in
  let is_entertainment :=
    mentions entertainment_keywords title (Py.take 200 content) in
  if (is_sports || is_entertainment)
     && negb (existsb (λ k, Py.contains k bi_lower)
                ["sport"; "entertainment"; "football"; "movie"; "music"])
  then false
  else if Py.truthy_list geo
          && negb (mentions geo title (Py.take 500 content))
  then false
  else if Py.truthy_list topic
          && (2 <? length topic)%nat
          && negb (mentions topic title (Py.take 500 content))
  then false
  else true.

(** The article loop: [article.get('title', '').lower()] raises on a
    null title. *)
Fixpoint pre_filter_loop (geo topic : list string) (bi_lower : string)
    (arts : list Article) : Result (list Article) :=
  match arts with
  | [] => Return []
  | a :: rest =>
      match art_title a with
      | None => Raise
      | Some t =>
          match pre_filter_loop geo topic bi_lower rest with
          | Raise => Raise
          | Return kept =>
              if keeps geo topic bi_lower (Py.lower t)
                       (Py.lower (art_content a))
              then Return (a :: kept) else Return kept
          end
      end
  end.

Definition pre_filter_articles (arts : list Article) (bi : string)
  : Result (list Article) :=
  match arts with
  | [] => Return []
  | _ =>
      let bi_lower := Py.lower bi in
      pre_filter_loop (geographic_keywords bi_lower) (topic_keywords bi_lower)
                      bi_lower arts
  end.

(** *** [batch_filter_articles] *)

(** [range(0, n, step)] *)
Definition py_range_step (n step : nat) : list nat :=
  (λ q, q * step) <$> seq 0 ((n + step - 1) / step).

(** [articles[i:i + BATCH_SIZE]] for [i] in [range(0, len(articles), BATCH_SIZE)] *)
Definition batches_of (arts : list Article) : list (list Article) :=
  (λ i, take BATCH_SIZE (drop i arts)) <$> py_range_step (length arts) BATCH_SIZE.

(** The text of one batch, [j] counting from 0. *)
Fixpoint articles_text_from (j : nat) (batch : list Article) : string :=
  match batch with
  | [] => EmptyString
  | a :: rest =>
      "Article " +:+ pretty (S j) +:+ ":" +:+ Py.nl
      +:+ "Title: " +:+ fmt_opt (art_title a) +:+ Py.nl
      +:+ "Content: " +:+ Py.take 800 (art_content a) +:+ "..."
      +:+ Py.nl +:+ Py.nl
      +:+ articles_text_from (S j) rest
  end.

Definition articles_text (batch : list Article) : string :=
  articles_text_from 0 batch.

(** The loop over the lines of a reply.  [true] in the result: the fifth
    relevant article was appended and the function returned. *)
Fixpoint collect_votes (batch : list Article) (j : nat) (lines : list string)
    (acc : list Article) : list Article * bool :=
  match lines with
  | [] => (acc, false)
  | line :: rest =>
      match batch !! j with
      | Some a =>
          if Py.contains "Yes" (Py.strip line) then
            let acc' := acc ++ [a] in
            if (5 <=? length acc')%nat then (acc', true)
            else collect_votes batch (S j) rest acc'
          else collect_votes batch (S j) rest acc
      | None => collect_votes batch (S j) rest acc
      end
  end.

Section WithCollaborators.

(** The relevance model and the summary model: from the number of
    calls already made to it in this run, and the prompt, to the
    reply. *)
Variable relevance_llm : nat → string → string → Reply.
Variable summary_llm : nat → string → string → Reply.

(** The loop over the batches, from the [n]-th call on: the relevant
    articles and the calls made. *)
Fixpoint filter_batches (bi : string) (n : nat)
    (batches : list (list Article)) (acc : list Article)
  : list Article * list Call :=
  match batches with
  | [] => (acc, [])
  | batch :: rest =>
      let text := articles_text batch in
      let call := RelevanceCall bi text in
      match relevance_llm n bi text with
      | Replied true content =>
          let '(acc', returned) :=
            collect_votes batch 0 (Py.split Py.newline (Py.strip content)) acc in
          if returned then (acc', [call])
          else
            let '(res, calls) := filter_batches bi (S n) rest acc' in
            (res, call :: calls)
      | _ =>
          let '(res, calls) := filter_batches bi (S n) rest acc in
          (res, call :: calls)
      end
  end.

Definition batch_filter_articles (arts : list Article) (bi : string)
  : list Article * list Call :=
  match arts with
  | [] => ([], [])
  | _ => filter_batches bi 0 (batches_of arts) []
  end.

(** *** [filter_articles_async] *)

Definition set_relevant (rel : list Article) (st : MyState) : MyState :=
  {| business_interest := business_interest st;
     sources := sources st;
     st_articles := st_articles st;
     relevant_articles := rel;
     summary := summary st;
     force_fresh := force_fresh st |}.

Definition filter_articles_async (st : MyState)
  : Result MyState * list Call :=
  match st_articles st with
  | [] => (Return (set_relevant [] st), [])
  | _ =>
      match pre_filter_articles (st_articles st) (business_interest st) with
      | Raise => (Raise, [])
      | Return [] => (Return (set_relevant [] st), [])
      | Return pre =>
          let '(rel, calls) := batch_filter_articles pre (business_interest st) in
          (Return (set_relevant rel st), calls)
      end
  end.

(** *** [summarize_articles_async] *)

Definition NO_RELEVANT : string :=
  "No relevant information found for this topic.".

Definition NO_ARTICLES_AFTER_FILTER : string :=
  "No relevant articles found after filtering out generic content.".

Definition set_summary (s : string) (st : MyState) : MyState :=
  {| business_interest := business_interest st;
     sources := sources st;
     st_articles := st_articles st;
     relevant_articles := relevant_articles st;
     summary := s;
     force_fresh := force_fresh st |}.

(** The [except] branch: the first sentences, or the head of the
    content when [sentences] is empty. *)
Definition fallback_summary (content : string) : string :=
  let sentences := take 3 (Py.split "."%char content) in
  if Py.truthy_list sentences
  then Py.join ". " sentences +:+ "."
  else Py.take 200 content +:+ "...".

(** [summary = response.content.strip()], without a leading
    ["Summary:"]. *)
Definition clean_summary (content : string) : string :=
  let s := Py.strip content in
  if Py.startswith "Summary:" s then Py.strip (Py.drop 8 s) else s.

(** The summary call made for an article. *)
Definition summary_call_of (a : Article) : Call :=
  SummaryCall (fmt_opt (art_title a)) (Py.take 2000 (art_content a)).

(** The lines of the block of the [i]-th kept article, and the call
    made for it, if any; [n] calls were made before. *)
Definition article_block (n i : nat) (a : Article)
  : list string * list Call :=
  let title := art_title a in
  let head :=
    ["## 📄 Article " +:+ pretty i; ""]
    ++ (match title with
        | Some t => if Py.truthy t then ["**Title:** " +:+ t; ""] else []
        | None => []
        end)
    ++ ["**Source:** " +:+ art_url a]
    ++ (match art_publish_date a with
        | Some d => if Py.truthy d then ["**Published:** " +:+ d] else []
        | None => []
        end)
    ++ [""] in
  let content := art_content a in
  let '(body, calls) :=
    if Py.truthy content then
      let call := SummaryCall (fmt_opt title) (Py.take 2000 content) in
      match summary_llm n (fmt_opt title) (Py.take 2000 content) with
      | Replied _ reply => (["**Summary:**"; ""; clean_summary reply], [call])
      | Raised => (["**Summary:**"; ""; fallback_summary content], [call])
      end
    else ([], []) in
  (head ++ body ++ [""; "---"; ""], calls).

Fixpoint article_blocks (n i : nat) (arts : list Article)
  : list string * list Call :=
  match arts with
  | [] => ([], [])
  | a :: rest =>
      let '(ls, cs) := article_block n i a in
      let '(ls', cs') := article_blocks (n + length cs) (S i) rest in
      (ls ++ ls', cs ++ cs')
  end.

Definition summarize_articles_async (st : MyState) : MyState * list Call :=
  match relevant_articles st with
  | [] => (set_summary NO_RELEVANT st, [])
  | _ =>
      let filtered :=
        filter (λ a, ¬ (String.length (art_content a) < 100)%nat)
               (relevant_articles st) in
      match filtered with
      | [] => (set_summary NO_ARTICLES_AFTER_FILTER st, [])
      | _ =>
          let header :=
            ["# 📰 Latest News Summary"; "";
             "**Topic:** " +:+ business_interest st;
             "**Articles Found:** " +:+ pretty (length filtered);
             ""; "---"; ""] in
          let '(blocks, calls) := article_blocks 0 1 filtered in
          (set_summary
             (Py.join Py.nl (header ++ blocks ++ ["*Generated by News Analyzer*"]))
             st, calls)
      end
  end.

(** *** [preprocess], [show_summary] and [get_news_async] *)

Variable spider : list (list string) → Scraper.Outcome.

Definition set_articles (arts : list Article) (st : MyState) : MyState :=
  {| business_interest := business_interest st;
     sources := sources st;
     st_articles := arts;
     relevant_articles := relevant_articles st;
     summary := summary st;
     force_fresh := force_fresh st |}.

(** A scraper exception is caught: the articles are then empty. *)
Definition preprocess (st : MyState) (e : Scraper.Env) : MyState * Scraper.Env :=
  let '(res, e') :=
    Scraper.run_scraper spider (sources st) (default false (force_fresh st)) e in
  (set_articles (match res with Return arts => arts | Raise => [] end) st, e').

Definition show_summary (st : MyState) : MyState := st.

(** What a run of the graph leaves: the returned summary (or the
    exception of the filter stage), the scraper environment, and the
    calls made to the collaborators, in order. *)
Record RunResult : Type := mkRun {
  run_summary : Result string;
  run_env : Scraper.Env;
  run_calls : list Call
}.

Definition get_news_async (bi : string) (srcs : list string) (e : Scraper.Env)
  : RunResult :=
  let st0 := mkMyState bi srcs [] [] "" None in
  let '(st1, e1) := preprocess st0 e in
  match filter_articles_async st1 with
  | (Raise, calls) => mkRun Raise e1 calls
  | (Return st2, calls) =>
      let '(st3, calls') := summarize_articles_async st2 in
      mkRun (Return (summary (show_summary st3))) e1 (calls ++ calls')
  end.

End WithCollaborators.

End Pipeline.

(** ** The report parser of the API: [analyze_news] in [api/routes/news.py] *)

Module Report.

(** The [Article] of the API schema; the score 1.0 is written 1. *)
Record ApiArticle : Type := mkApiArticle {
  api_title : string;
  api_content : string;
  api_url : string;
  api_source : string;
  api_published_date : string;
  api_relevance_score : Z
}.

Definition HEADER : string := "## 📄 Article".

(** The variables of the loop over the lines; [ticks] counts the calls
    of [datetime.now()] made so far. *)
Record Parser : Type := mkParser {
  current_article : option ApiArticle;
  collecting_summary : bool;
  summary_lines : list string;
  parsed : list ApiArticle;
  ticks : nat
}.

Section WithClock.

(** [datetime.now().isoformat()] at its [n]-th call, and
    [urlparse(url).netloc] ([None] when it raises). *)
Variable now_iso : nat → string.
Variable netloc : string → option string.

(** The dictionary a header starts. *)
Definition blank_article (n : nat) : ApiArticle :=
  {| api_title := "";
     api_content := "";
     api_url := "";
     api_source := "Multiple Sources";
     api_published_date := now_iso n;
     api_relevance_score := 1 |}.

(** What is appended for the current article: its content is the joined
    summary lines when there are any. *)
Definition flush (a : ApiArticle) (lines : list string) : ApiArticle :=
  match lines with
  | [] => a
  | _ =>
      {| api_title := api_title a;
         api_content := Py.join " " lines;
         api_url := api_url a;
         api_source := api_source a;
         api_published_date := api_published_date a;
         api_relevance_score := api_relevance_score a |}
  end.

Definition set_title (t : string) (a : ApiArticle) : ApiArticle :=
  {| api_title := t; api_content := api_content a; api_url := api_url a;
     api_source := api_source a;
     api_published_date := api_published_date a;
     api_relevance_score := api_relevance_score a |}.

Definition set_url (u : string) (a : ApiArticle) : ApiArticle :=
  {| api_title := api_title a; api_content := api_content a; api_url := u;
     api_source :=
       match netloc u with
       | Some host => Py.replace "www." "" host
       | None => api_source a
       end;
     api_published_date := api_published_date a;
     api_relevance_score := api_relevance_score a |}.

Definition set_date (d : string) (a : ApiArticle) : ApiArticle :=
  {| api_title := api_title a; api_content := api_content a;
     api_url := api_url a; api_source := api_source a;
     api_published_date := d;
     api_relevance_score := api_relevance_score a |}.

Definition with_current (a : option ApiArticle) (p : Parser) : Parser :=
  mkParser a (collecting_summary p) (summary_lines p) (parsed p) (ticks p).

(** The body of the loop, on one line of the report. *)
Definition step (raw : string) (p : Parser) : Parser :=
  let line := Py.strip raw in
  if Py.startswith HEADER line then
    mkParser (Some (blank_article (ticks p))) false []
      (match current_article p with
       | Some a => parsed p ++ [flush a (summary_lines p)]
       | None => parsed p
       end)
      (S (ticks p))
  else
    match current_article p with
    | Some a =>
        if Py.startswith "**Title:**" line then
          with_current
            (Some (set_title (Py.strip (Py.replace "**Title:**" "" line)) a)) p
        else if Py.startswith "**Source:**" line then
          let url := Py.strip (Py.replace "**Source:**" "" line) in
          if String.eqb url "N/A" then p
          else with_current (Some (set_url url a)) p
        else if Py.startswith "**Published:**" line then
          let d := Py.strip (Py.replace "**Published:**" "" line) in
          if Py.truthy d && negb (String.eqb d "N/A")
          then with_current (Some (set_date d a)) p else p
        else if Py.startswith "**Summary:**" line then
          mkParser (Some a) true [] (parsed p) (ticks p)
        else if collecting_summary p && Py.truthy line
                && negb (Py.startswith "**" line)
                && negb (Py.startswith "---" line)
                && negb (Py.startswith "#" line)
        then mkParser (Some a) true (summary_lines p ++ [line]) (parsed p)
                      (ticks p)
        else p
    | None => p
    end.

Fixpoint steps (lines : list string) (p : Parser) : Parser :=
  match lines with
  | [] => p
  | l :: rest => steps rest (step l p)
  end.

(** After the loop the last article, if any, is appended. *)
Definition finish (p : Parser) : list ApiArticle :=
  match current_article p with
  | Some a => parsed p ++ [flush a (summary_lines p)]
  | None => parsed p
  end.

(** The article made of the whole text when nothing was parsed. *)
Definition fallback_article (text : string) (n : nat) : ApiArticle :=
  {| api_title := "News Analysis Summary";
     api_content := text;
     api_url := "";
     api_source := "Multiple Sources";
     api_published_date := now_iso n;
     api_relevance_score := 1 |}.

(** The articles [analyze_news] builds from the summary that
    [get_news_async] returned. *)
Definition parse_report (news_result : string) : list ApiArticle :=
  if Py.truthy news_result then
    let p := steps (Py.split Py.newline news_result)
                   (mkParser None false [] [] 0) in
    match finish p with
    | [] => [fallback_article news_result (ticks p)]
    | arts => arts
    end
  else [].

End WithClock.

(** The lines of a report that start an article. *)
Definition header_lines (text : string) : list string :=
  filter (λ l, Py.startswith HEADER (Py.strip l) = true)
         (Py.split Py.newline text).

End Report.

(** ** Sample data for the concrete runs *)

Module Samples.

Definition sample_article : Article :=
  {| art_url := "https://example.com/article/market-update";
     art_title := Some "Market update";
     art_content := "Shares rose.";
     art_publish_date := None;
     art_domain := "example.com";
     art_extraction_method := "trafilatura" |}.

(** A spider that returns one more article at each launch. *)
Definition growing_spider (ls : list (list string)) : Scraper.Outcome :=
  Scraper.OutputLoaded (replicate (length ls) sample_article).

(** A spider whose first launch writes no output file and whose later
    launches write one article. *)
Definition recovering_spider (ls : list (list string)) : Scraper.Outcome :=
  match ls with
  | [_] => Scraper.OutputMissing
  | _ => Scraper.OutputLoaded [sample_article]
  end.

(** A spider that never writes its output file. *)
Definition silent_spider (ls : list (list string)) : Scraper.Outcome :=
  Scraper.OutputMissing.

(** A spider whose process cannot be started. *)
Definition crashing_spider (ls : list (list string)) : Scraper.Outcome :=
  Scraper.LaunchRaised.

Definition fresh_env : Scraper.Env := Scraper.mkEnv None [].

(** An environment whose cache holds the articles of [b.com]. *)
Definition env_with_b : Scraper.Env :=
  Scraper.mkEnv (Some {[ ["b.com"] := [sample_article] ]}) [["b.com"]].

(** Every request of the sample site can be built. *)
Definition every_request_builds (url : string) : bool := true.

(** A constructor that refuses a port out of range. *)
Definition refuses_port_99999 (url : string) : bool :=
  negb (Py.contains ":99999" url).

(** One site: a front page, a section page and article pages. *)
Definition seed : string := "https://example.com".
Definition world_url : string := "https://example.com/world/".
Definition article_url (n : nat) : string :=
  "https://example.com/article/" +:+ pretty n.

(** The front page links to the section and to thirty articles; the
    section page links to thirty others. *)
Definition front_page : Spider.Response :=
  Spider.mkResponse seed 0 (world_url :: (article_url <$> seq 1 30)).
Definition world_page : Spider.Response :=
  Spider.mkResponse world_url 1 (article_url <$> seq 31 30).

(** The front page and the section page link to the same article. *)
Definition shared_article : string := "https://example.com/article/market-update".
Definition home_page : Spider.Response :=
  Spider.mkResponse seed 0 [world_url; shared_article].
Definition world_page_again : Spider.Response :=
  Spider.mkResponse world_url 1 [shared_article].

(** An article page on which the structured extraction finds nothing and
    the [article] selector finds 150 characters. *)
Definition css_only_page : Spider.ArticlePage :=
  Spider.mkPage shared_article (Some "example.com") None
    (λ sel, if String.eqb sel "article"
            then Some (Py.repeat_char "x" 150) else None)
    "2024-05-17T00:00:00" (Some 0%Z).

(** An article page on which the structured extraction finds 150
    characters. *)
Definition structured_page : Spider.ArticlePage :=
  Spider.mkPage shared_article (Some "example.com")
    (Some (Py.repeat_char "y" 150))
    (λ sel, if String.eqb sel "article"
            then Some (Py.repeat_char "x" 150) else None)
    "2024-05-17T00:00:00" (Some 0%Z).

Definition no_markup (s : string) : string := s.

(** Articles for the pipeline, numbered. *)
Definition numbered_article (n : nat) : Article :=
  {| art_url := article_url n;
     art_title := Some ("Report " +:+ pretty n);
     art_content := Py.repeat_char "b" 120;
     art_publish_date := None;
     art_domain := "example.com";
     art_extraction_method := "trafilatura" |}.

(** A relevance model that votes yes on every line. *)
Definition eager_llm (n : nat) (bi text : string) : Pipeline.Reply :=
  Pipeline.Replied true (Py.join Py.nl (replicate 5 "Yes")).

(** A relevance model that votes no on every line. *)
Definition reluctant_llm (n : nat) (bi text : string) : Pipeline.Reply :=
  Pipeline.Replied true (Py.join Py.nl (replicate 5 "No")).

(** A clock that always shows the same instant. *)
Definition frozen_clock (n : nat) : string := "2024-05-17T12:00:00".

(** A relevance model that is down. *)
Definition failing_llm (n : nat) (bi text : string) : Pipeline.Reply :=
  Pipeline.Raised.

(** An article whose page had no usable title, and a spider that returns
    it. *)
Definition untitled_article : Article :=
  {| art_url := article_url 9;
     art_title := None;
     art_content := Py.repeat_char "c" 120;
     art_publish_date := None;
     art_domain := "example.com";
     art_extraction_method := "trafilatura" |}.

Definition untitled_spider (ls : list (list string)) : Scraper.Outcome :=
  Scraper.OutputLoaded [untitled_article].

(** An article about Doha and one about something else. *)
Definition doha_article : Article :=
  {| art_url := article_url 3;
     art_title := Some "Doha port expands";
     art_content := Py.repeat_char "d" 120;
     art_publish_date := None;
     art_domain := "example.com";
     art_extraction_method := "trafilatura" |}.

(** An article of 300 characters without a full stop. *)
Definition unpunctuated_article : Article :=
  {| art_url := article_url 7;
     art_title := Some "Ticker";
     art_content := Py.repeat_char "a" 300;
     art_publish_date := None;
     art_domain := "example.com";
     art_extraction_method := "trafilatura" |}.

(** A summary model that fails on its first call only. *)
Definition flaky_llm (n : nat) (title content : string) : Pipeline.Reply :=
  match n with
  | O => Pipeline.Raised
  | S _ => Pipeline.Replied true "Summary: Prices fell."
  end.

End Samples.

(** * Properties *)

(** ** Link classification *)

Section Classification.

Import Spider.

Variable netloc : string → option string.

Lemma skip_not_article url domain :
  Re.any_search skip_patterns url = true →
  is_likely_article_url url domain = false.
Proof. unfold is_likely_article_url. by intros ->. Qed.

Lemma skip_not_internal url domain :
  Re.any_search skip_patterns url = true →
  is_internal_link netloc url domain = false.
Proof. unfold is_internal_link. by intros ->. Qed.

(** C1, as the code has it: a URL that matches a skip pattern is never
    an article link nor an internal-navigation link, but the skip list
    is only consulted by those two tests: the link is a category link
    when a category pattern matches it, else a pagination link when a
    pagination pattern matches it, and rejected only otherwise. *)
Theorem skip_url_classification url domain :
  Re.any_search skip_patterns url = true →
  classify netloc url domain =
    if is_category_page url domain then KCategory
    else if is_pagination_link url domain then KPagination
    else KReject.
Proof.
  intros Hskip. unfold classify.
  rewrite (skip_not_article _ _ Hskip), (skip_not_internal _ _ Hskip).
  by repeat case_match.
Qed.

Corollary skip_url_never_article_or_internal url domain :
  Re.any_search skip_patterns url = true →
  classify netloc url domain ≠ KArticle
  ∧ classify netloc url domain ≠ KInternalNav.
Proof.
  intros Hskip. unfold classify.
  rewrite (skip_not_article _ _ Hskip), (skip_not_internal _ _ Hskip).
  by repeat case_match.
Qed.

End Classification.

(** A login page outside every section is rejected. *)
Lemma skip_url_classification_witness :
  Re.any_search Spider.skip_patterns "https://example.com/login" = true
  ∧ Spider.classify Crawl.netloc "https://example.com/login" "example.com"
    = Spider.KReject.
Proof.
  split; [reflexivity|].
  rewrite (skip_url_classification Crawl.netloc
             "https://example.com/login" "example.com"); reflexivity.
Defined.

(** C1 as stated fails: a login page below [/business/] matches the skip
    pattern [/login] and is queued as a category page. *)
Lemma skip_url_followed_as_category :
  Re.any_search Spider.skip_patterns "https://example.com/business/login" = true
  ∧ Spider.classify Crawl.netloc "https://example.com/business/login" "example.com"
    = Spider.KCategory.
Proof. split; reflexivity. Qed.

(** The same for pagination: a search page with a page number. *)
Example skip_url_followed_as_pagination :
  Re.any_search Spider.skip_patterns "https://example.com/search?page=2" = true
  ∧ Spider.classify Crawl.netloc "https://example.com/search?page=2" "example.com"
    = Spider.KPagination.
Proof. split; reflexivity. Qed.

(** A dated article inside a section is an article, not a category. *)
Example dated_article_in_section :
  Spider.classify Crawl.netloc
    "https://example.com/world/2024/05/17/summit" "example.com"
  = Spider.KArticle.
Proof. reflexivity. Qed.

(** ** The scraper cache *)

Section CacheKey.

Import Scraper.

Lemma str_le_spec s1 s2 :
  str_le s1 s2 ↔ s1 = s2 ∨ OrderedTypeEx.String_as_OT.lt s1 s2.
Proof.
  unfold str_le, String.leb.
  pose proof (OrderedTypeEx.String_as_OT.cmp_eq s1 s2) as Heq.
  pose proof (OrderedTypeEx.String_as_OT.cmp_lt s1 s2) as Hlt.
  unfold OrderedTypeEx.String_as_OT.cmp in *.
  destruct (String.compare s1 s2) eqn:Hc.
  - split; [intros _; left; by apply Heq|done].
  - split; [intros _; right; by apply Hlt|done].
  - split; [done|]. intros [H|H].
    + apply Heq in H. congruence.
    + apply Hlt in H. congruence.
Qed.

Lemma str_le_trans : Transitive str_le.
Proof.
  intros a b c Hab Hbc. apply str_le_spec in Hab, Hbc. apply str_le_spec.
  destruct Hab as [->|Hab]; [done|].
  destruct Hbc as [<-|Hbc]; [by right|].
  right. by eapply OrderedTypeEx.String_as_OT.lt_trans.
Qed.

Lemma str_le_antisym : AntiSymm (=) str_le.
Proof. intros a b Hab Hba. by apply String.leb_antisym. Qed.

Lemma str_le_total : Total str_le.
Proof. intros a b. apply String.leb_total. Qed.

(** The key does not depend on the order of the sources. *)
Lemma cache_key_perm s1 s2 : s1 ≡ₚ s2 → cache_key s1 = cache_key s2.
Proof.
  intros Hp. unfold cache_key.
  pose proof str_le_trans. pose proof str_le_antisym. pose proof str_le_total.
  apply (Sorted_unique str_le).
  - by apply Sorted_merge_sort.
  - by apply Sorted_merge_sort.
  - by rewrite !merge_sort_Permutation.
Qed.

(** It keeps every occurrence: lists of different lengths have
    different keys. *)
Lemma cache_key_length s : length (cache_key s) = length s.
Proof. unfold cache_key. by rewrite merge_sort_Permutation. Qed.

End CacheKey.

Section Cache.

Import Scraper.

Variable spider : list (list string) → Outcome.

Lemma run_scraper_hit s e arts :
  cache_lookup (cache_key s) e = Some arts →
  run_scraper spider s false e = (Return arts, e).
Proof. intros H. unfold run_scraper. by rewrite H. Qed.

Lemma cache_lookup_store k k' arts e :
  cache_lookup k (cache_store k' arts e)
  = if decide (k' = k) then Some arts else cache_lookup k e.
Proof.
  unfold cache_lookup, cache_store. simpl. rewrite lookup_insert.
  case_decide; [done|]. destruct (cache e); [done|]. apply lookup_empty.
Qed.

Lemma cache_lookup_clear k e : cache_lookup k (clear_scraper_cache e) = None.
Proof.
  unfold cache_lookup, clear_scraper_cache. simpl.
  destruct (cache e); [apply lookup_empty|done].
Qed.

(** Whatever a call returns is in the cache under the key of its
    sources when the call is over. *)
Lemma run_scraper_returns_cached s f e arts e1 :
  run_scraper spider s f e = (Return arts, e1) →
  cache_lookup (cache_key s) e1 = Some arts.
Proof.
  unfold run_scraper.
  destruct (cache_lookup _ _) as [hit|] eqn:Hl.
  - intros [= <- <-]. done.
  - destruct (spider _); intros [= <- <-];
      rewrite cache_lookup_store; by rewrite decide_True.
Qed.

(** A call without the flag keeps every entry of the cache. *)
Lemma run_scraper_keeps k s e arts :
  cache_lookup k e = Some arts →
  cache_lookup k (run_scraper spider s false e).2 = Some arts.
Proof.
  intros Hk. unfold run_scraper.
  destruct (cache_lookup (cache_key s) e) as [hit|] eqn:Hl; [done|].
  assert (cache_key s ≠ k) by congruence.
  destruct (spider _); simpl; rewrite ?cache_lookup_store, ?decide_False; done.
Qed.

Lemma run_many_keeps k calls e arts :
  Forall (λ c, c.2 = false) calls →
  cache_lookup k e = Some arts →
  cache_lookup k (run_many spider calls e) = Some arts.
Proof.
  intros Hc. revert e.
  induction Hc as [|[s f] calls Hf _ IH]; intros e Hk; [done|].
  simpl in *. subst f. by apply IH, run_scraper_keeps.
Qed.

(** The cache after a call with the flag: the result alone, or nothing
    when the call raises. *)
Lemma run_scraper_fresh_cache s e :
  cache (run_scraper spider s true e).2
  = match (run_scraper spider s true e).1 with
    | Return arts => Some {[ cache_key s := arts ]}
    | Raise => (λ _, ∅) <$> cache e
    end.
Proof.
  unfold run_scraper. rewrite cache_lookup_clear.
  destruct (spider _); simpl; try done;
    destruct (cache e); simpl; by rewrite ?insert_empty.
Qed.

(** C5, as the code has it: when two source lists are equal up to the
    order of their elements (each source as many times in one as in the
    other), and a call on the first has returned an article list, a
    later call on the second without the force-fresh flag returns that
    list from the cache and leaves the environment as it is (the spider
    is not launched), whatever calls without the flag came between. *)
Theorem cached_rerun_permuted s1 s2 (f : bool) e arts e1
    (calls : list (list string * bool)) :
  s1 ≡ₚ s2 →
  run_scraper spider s1 f e = (Return arts, e1) →
  Forall (λ c, c.2 = false) calls →
  run_scraper spider s2 false (run_many spider calls e1)
  = (Return arts, run_many spider calls e1).
Proof.
  intros Hp Hrun Hcalls. apply run_scraper_hit.
  rewrite <- (cache_key_perm _ _ Hp).
  by eapply run_many_keeps, run_scraper_returns_cached.
Qed.

(** C6, as the code has it: a call with the force-fresh flag empties the
    whole cache before it scrapes, so that afterwards no entry is left
    under any key other than the key of its own sources. *)
Theorem force_fresh_clears_every_entry s e k :
  k ≠ cache_key s →
  cache_lookup k (run_scraper spider s true e).2 = None.
Proof.
  intros Hk. unfold cache_lookup. rewrite run_scraper_fresh_cache.
  destruct (run_scraper spider s true e).1; simpl.
  - by rewrite lookup_singleton_ne.
  - destruct (cache e); [simpl; by rewrite lookup_empty|done].
Qed.

(** C10, as the code has it: when the spider is run and leaves no
    readable output file (it is missing, or it is not JSON), the call
    returns the empty list and stores it under the key of its sources;
    a later call without the force-fresh flag on a reordering of these
    sources returns that empty list and does not launch the spider, as
    long as every call made in between was without the flag. *)
Theorem failed_scrape_is_cached s1 s2 (f : bool) e
    (calls : list (list string * bool)) :
  cache_lookup (cache_key s1) (if f then clear_scraper_cache e else e) = None →
  spider (launches e ++ [s1]) = OutputMissing
    ∨ spider (launches e ++ [s1]) = OutputInvalid →
  s1 ≡ₚ s2 →
  Forall (λ c, c.2 = false) calls →
  (run_scraper spider s1 f e).1 = Return []
  ∧ cache_lookup (cache_key s1) (run_scraper spider s1 f e).2 = Some []
  ∧ run_scraper spider s2 false
      (run_many spider calls (run_scraper spider s1 f e).2)
    = (Return [], run_many spider calls (run_scraper spider s1 f e).2).
Proof.
  intros Hmiss Hout Hp Hcalls.
  assert (∃ e1, run_scraper spider s1 f e = (Return [], e1)) as [e1 Hrun].
  { unfold run_scraper. rewrite Hmiss.
    assert (launches (launch s1 (if f then clear_scraper_cache e else e))
            = launches e ++ [s1]) as -> by by destruct f.
    destruct Hout as [-> | ->]; eauto. }
  rewrite Hrun. simpl. split; [done|]. split.
  - by eapply run_scraper_returns_cached.
  - apply run_scraper_hit. rewrite <- (cache_key_perm _ _ Hp).
    by eapply run_many_keeps, run_scraper_returns_cached.
Qed.

End Cache.

(** Two orders of one source pair, with a call on other sources between. *)
Lemma cached_rerun_permuted_witness :
  Scraper.run_scraper Samples.growing_spider ["a.com"; "b.com"] false
    (Scraper.run_many Samples.growing_spider [(["c.com"], false)]
       (Scraper.run_scraper Samples.growing_spider ["b.com"; "a.com"] false
          Samples.fresh_env).2)
  = (Return [Samples.sample_article],
     Scraper.run_many Samples.growing_spider [(["c.com"], false)]
       (Scraper.run_scraper Samples.growing_spider ["b.com"; "a.com"] false
          Samples.fresh_env).2).
Proof.
  apply (cached_rerun_permuted Samples.growing_spider
           ["b.com"; "a.com"] ["a.com"; "b.com"] false Samples.fresh_env).
  - apply perm_swap.
  - vm_compute. reflexivity.
  - repeat constructor.
Defined.

(** C5 as stated fails: [["a.com"; "a.com"]] and [["a.com"]] are equal as
    sets, yet they have different keys, so the second call launches the
    spider again and returns what that launch produced. *)
Lemma set_equal_sources_rescraped :
  (∀ x : string, x ∈ ["a.com"; "a.com"] ↔ x ∈ ["a.com"])
  ∧ (Scraper.run_scraper Samples.growing_spider ["a.com"; "a.com"] false
       Samples.fresh_env).1 = Return [Samples.sample_article]
  ∧ (Scraper.run_scraper Samples.growing_spider ["a.com"] false
       (Scraper.run_scraper Samples.growing_spider ["a.com"; "a.com"] false
          Samples.fresh_env).2).1
    = Return [Samples.sample_article; Samples.sample_article]
  ∧ Scraper.launches
      (Scraper.run_scraper Samples.growing_spider ["a.com"] false
         (Scraper.run_scraper Samples.growing_spider ["a.com"; "a.com"] false
            Samples.fresh_env).2).2
    = [["a.com"; "a.com"]; ["a.com"]].
Proof.
  split; [intros x; rewrite !elem_of_cons; tauto|].
  split; [|split]; vm_compute; reflexivity.
Qed.

(** After a forced run on [a.com] nothing is left under [b.com]. *)
Lemma force_fresh_clears_every_entry_witness :
  ["b.com"] ≠ Scraper.cache_key ["a.com"]
  ∧ Scraper.cache_lookup ["b.com"]
      (Scraper.run_scraper Samples.growing_spider ["a.com"] true
         Samples.env_with_b).2 = None.
Proof.
  assert (["b.com"] ≠ Scraper.cache_key ["a.com"]) as Hne
    by (vm_compute; discriminate).
  split; [exact Hne|].
  exact (force_fresh_clears_every_entry Samples.growing_spider
           ["a.com"] Samples.env_with_b ["b.com"] Hne).
Defined.

(** C6 as stated fails: the entry of [b.com] is in the cache before a
    forced run on [a.com] and gone after it. *)
Lemma force_fresh_drops_other_entry :
  ["b.com"] ≠ Scraper.cache_key ["a.com"]
  ∧ Scraper.cache_lookup ["b.com"] Samples.env_with_b
    = Some [Samples.sample_article]
  ∧ Scraper.cache_lookup ["b.com"]
      (Scraper.run_scraper Samples.growing_spider ["a.com"] true
         Samples.env_with_b).2 = None.
Proof.
  split; [vm_compute; discriminate|].
  split; vm_compute; reflexivity.
Qed.

(** C10 as stated fails: not every later call is served the cached
    empty list.  The first launch writes no file, so the empty list is
    cached for [a.com]; a forced run on [b.com] then empties the whole
    cache, and the next call on [a.com], without the flag, launches the
    spider again and returns what that launch wrote. *)
Lemma forced_run_discards_cached_failure :
  (Scraper.run_scraper Samples.recovering_spider ["a.com"] false
     Samples.fresh_env).1 = Return []
  ∧ Scraper.cache_lookup (Scraper.cache_key ["a.com"])
      (Scraper.run_scraper Samples.recovering_spider ["a.com"] false
         Samples.fresh_env).2 = Some []
  ∧ (Scraper.run_scraper Samples.recovering_spider ["a.com"] false
       (Scraper.run_many Samples.recovering_spider [(["b.com"], true)]
          (Scraper.run_scraper Samples.recovering_spider ["a.com"] false
             Samples.fresh_env).2)).1
    = Return [Samples.sample_article]
  ∧ Scraper.launches
      (Scraper.run_scraper Samples.recovering_spider ["a.com"] false
         (Scraper.run_many Samples.recovering_spider [(["b.com"], true)]
            (Scraper.run_scraper Samples.recovering_spider ["a.com"] false
               Samples.fresh_env).2)).2
    = [["a.com"]; ["b.com"]; ["a.com"]].
Proof.
  split; [|split; [|split]]; vm_compute; reflexivity.
Qed.

(** The same with a source listed twice: the key differs and the spider
    is launched again. *)
Example duplicated_source_misses_cached_failure :
  Scraper.launches
    (Scraper.run_scraper Samples.silent_spider ["a.com"; "a.com"] false
       (Scraper.run_scraper Samples.silent_spider ["a.com"] false
          Samples.fresh_env).2).2
  = [["a.com"]; ["a.com"; "a.com"]].
Proof. vm_compute. reflexivity. Qed.

(** A spider that writes nothing: the empty list is served from the
    cache to the reordered sources. *)
Lemma failed_scrape_is_cached_witness :
  (Scraper.run_scraper Samples.silent_spider ["b.com"; "a.com"] false
     Samples.fresh_env).1 = Return []
  ∧ Scraper.cache_lookup (Scraper.cache_key ["b.com"; "a.com"])
      (Scraper.run_scraper Samples.silent_spider ["b.com"; "a.com"] false
         Samples.fresh_env).2 = Some []
  ∧ Scraper.run_scraper Samples.silent_spider ["a.com"; "b.com"] false
      (Scraper.run_many Samples.silent_spider []
         (Scraper.run_scraper Samples.silent_spider ["b.com"; "a.com"] false
            Samples.fresh_env).2)
    = (Return [],
       Scraper.run_many Samples.silent_spider []
         (Scraper.run_scraper Samples.silent_spider ["b.com"; "a.com"] false
            Samples.fresh_env).2).
Proof.
  apply (failed_scrape_is_cached Samples.silent_spider
           ["b.com"; "a.com"] ["a.com"; "b.com"] false Samples.fresh_env []).
  - reflexivity.
  - left. reflexivity.
  - apply perm_swap.
  - constructor.
Defined.

(** ** The crawl *)

Section CrawlFacts.

Import Spider Crawl.

Variable netloc : string → option string.

(** One page never yields more article requests than the cap. *)
Lemma scan_links_bound (max_articles : nat) domain (count : nat) links :
  (count ≤ max_articles)%nat →
  (count + length (scan_articles (scan_links netloc max_articles domain count links))
   ≤ max_articles)%nat.
Proof.
  revert count. induction links as [|l links IH]; intros count Hc; simpl.
  - lia.
  - destruct (max_articles <=? count)%nat eqn:Hm; simpl; [lia|].
    apply Nat.leb_gt in Hm.
    destruct (classify netloc l domain); simpl.
    + specialize (IH (S count)). lia.
    + by apply IH.
    + by apply IH.
    + by apply IH.
    + by apply IH.
Qed.

(** A follow-up loop requests fresh URLs only, each once, and records
    them. *)
Lemma follow_links_spec domain depth links seen rs seen' :
  follow_links domain depth links seen = (rs, seen') →
  NoDup (req_url <$> rs)
  ∧ (∀ u, u ∈ req_url <$> rs → u ∉ seen)
  ∧ seen' = seen ∪ list_to_set (req_url <$> rs)
  ∧ Forall is_followup rs.
Proof.
  revert seen rs seen'.
  induction links as [|l links IH]; intros seen rs seen'; simpl.
  - intros [= <- <-]. split_and!; [constructor|set_solver|set_solver|constructor].
  - destruct (decide (l ∈ seen)) as [Hin|Hout]; [apply IH|].
    destruct (follow_links domain depth links ({[l]} ∪ seen)) as [rs0 seen0] eqn:Hf.
    intros [= <- <-]. destruct (IH _ _ _ Hf) as (Hnd & Hfresh & -> & Hall).
    simpl. split_and!.
    + constructor; [|done]. intros Hl. apply Hfresh in Hl. set_solver.
    + intros u [->|Hu]%elem_of_cons; [done|]. apply Hfresh in Hu. set_solver.
    + set_solver.
    + constructor; [|done]. split; [done|]. by eexists.
Qed.

Lemma follow_spec cap domain depth max_d links seen rs seen' :
  follow cap domain depth max_d links seen = (rs, seen') →
  NoDup (req_url <$> rs)
  ∧ (∀ u, u ∈ req_url <$> rs → u ∉ seen)
  ∧ seen' = seen ∪ list_to_set (req_url <$> rs)
  ∧ Forall is_followup rs.
Proof.
  unfold follow. destruct links as [|l links].
  - intros [= <- <-]. split_and!; [constructor|set_solver|set_solver|constructor].
  - destruct (depth <? max_d)%nat; [apply follow_links_spec|].
    intros [= <- <-]. split_and!; [constructor|set_solver|set_solver|constructor].
Qed.

Lemma followup_urls_app rs1 rs2 :
  followup_urls (rs1 ++ rs2) = followup_urls rs1 ++ followup_urls rs2.
Proof. unfold followup_urls. by rewrite filter_app, fmap_app. Qed.

Lemma followup_urls_all rs :
  Forall is_followup rs → followup_urls rs = req_url <$> rs.
Proof.
  unfold followup_urls. induction 1 as [|r rs Hr _ IH]; [done|].
  rewrite filter_cons_True by done. rewrite !fmap_cons. by f_equal.
Qed.

Lemma followup_urls_articles domain depth links :
  followup_urls (map (λ l, mkRequest l CbParseArticle (Some domain) depth) links)
  = [].
Proof.
  unfold followup_urls. induction links as [|l links IH]; [done|].
  simpl. rewrite filter_cons_False; [done|]. by intros [? ?].
Qed.

(** The follow-ups of one page are distinct, were not in
    [processed_urls] before, and are exactly what the page adds to it. *)
Lemma parse_followups r st rs st' :
  parse netloc r st = (rs, st') →
  NoDup (followup_urls rs)
  ∧ (∀ u, u ∈ followup_urls rs → u ∉ processed_urls st)
  ∧ processed_urls st' = processed_urls st ∪ list_to_set (followup_urls rs).
Proof.
  unfold parse. destruct (netloc (resp_url r)) as [domain|].
  2:{ intros [= <- <-]. split_and!; [constructor|set_solver|set_solver]. }
  destruct (_ <? _)%nat.
  { intros [= <- <-]. simpl. split_and!; [constructor|set_solver|set_solver]. }
  destruct (follow 3 _ _ _ _ _) as [r1 seen1] eqn:H1.
  destruct (follow 2 _ _ _ (scan_pagination _) _) as [r2 seen2] eqn:H2.
  destruct (follow 2 _ _ _ (scan_internal _) _) as [r3 seen3] eqn:H3.
  intros [= <- <-].
  apply follow_spec in H1 as (N1 & F1 & -> & A1).
  apply follow_spec in H2 as (N2 & F2 & -> & A2).
  apply follow_spec in H3 as (N3 & F3 & -> & A3).
  rewrite !followup_urls_app, followup_urls_articles.
  rewrite !followup_urls_all by done. simpl in *.
  split_and!.
  - apply NoDup_app. split_and!; [done| |].
    + intros u Hu [Hu2|Hu3]%elem_of_app.
      * apply F2 in Hu2. set_solver.
      * apply F3 in Hu3. set_solver.
    + apply NoDup_app. split_and!; [done| |done].
      intros u Hu Hu3. apply F3 in Hu3. set_solver.
  - intros u [Hu|[Hu|Hu]%elem_of_app]%elem_of_app.
    + by apply F1.
    + apply F2 in Hu. set_solver.
    + apply F3 in Hu. set_solver.
  - set_solver.
Qed.

(** Over a whole run, in whatever order the pages come: no follow-up URL
    is requested twice, none was in [processed_urls] at the start, and
    [processed_urls] grows by exactly these URLs. *)
Lemma run_followups pages st rs st' :
  run netloc pages st = (rs, st') →
  NoDup (followup_urls rs)
  ∧ (∀ u, u ∈ followup_urls rs → u ∉ processed_urls st)
  ∧ processed_urls st' = processed_urls st ∪ list_to_set (followup_urls rs).
Proof.
  revert st rs st'. induction pages as [|r pages IH]; intros st rs st'; simpl.
  - intros [= <- <-]. split_and!; [constructor|set_solver|set_solver].
  - destruct (parse netloc r st) as [rq st1] eqn:Hp.
    destruct (run netloc pages st1) as [rqs st2] eqn:Hr.
    intros [= <- <-].
    apply parse_followups in Hp as (N1 & F1 & E1).
    apply IH in Hr as (N2 & F2 & E2).
    rewrite followup_urls_app. split_and!.
    + apply NoDup_app. split_and!; [done| |done].
      intros u Hu Hu2. apply F2 in Hu2. set_solver.
    + intros u [Hu|Hu]%elem_of_app; [by apply F1|].
      apply F2 in Hu. set_solver.
    + by rewrite E2, E1, list_to_set_app_L, (assoc_L (∪)).
Qed.

Lemma article_requests_followups domain rs :
  Forall is_followup rs → article_requests domain rs = [].
Proof.
  unfold article_requests. induction 1 as [|r rs [Hr _] _ IH]; [done|].
  rewrite filter_cons_False; [done|]. intros [? _]. congruence.
Qed.

Lemma article_requests_app domain rs1 rs2 :
  article_requests domain (rs1 ++ rs2)
  = article_requests domain rs1 ++ article_requests domain rs2.
Proof. unfold article_requests. apply filter_app. Qed.

Lemma article_requests_length domain rs :
  (length (article_requests domain rs) ≤ length rs)%nat.
Proof. unfold article_requests. apply length_filter. Qed.

(** The cap holds page by page: one call of [parse] yields at most
    [max_articles_per_source] article requests. *)
Lemma parse_article_cap r st domain :
  (length (article_requests domain (parse netloc r st).1)
   ≤ max_articles_per_source st)%nat.
Proof.
  unfold parse. destruct (netloc (resp_url r)) as [d|]; [|simpl; lia].
  destruct (_ <? _)%nat; [simpl; lia|].
  destruct (follow 3 _ _ _ _ _) as [r1 seen1] eqn:H1.
  destruct (follow 2 _ _ _ (scan_pagination _) _) as [r2 seen2] eqn:H2.
  destruct (follow 2 _ _ _ (scan_internal _) _) as [r3 seen3] eqn:H3.
  apply follow_spec in H1 as (_ & _ & _ & A1).
  apply follow_spec in H2 as (_ & _ & _ & A2).
  apply follow_spec in H3 as (_ & _ & _ & A3).
  simpl. rewrite !article_requests_app.
  rewrite (article_requests_followups _ r1 A1),
    (article_requests_followups _ r2 A2),
    (article_requests_followups _ r3 A3), !app_nil_r.
  etrans; [apply article_requests_length|]. rewrite length_map.
  pose proof (scan_links_bound (max_articles_per_source st) d 0
                (extract_links netloc r d)). lia.
Qed.

End CrawlFacts.

(** C2 fails on the code: the counter that is compared with
    [max_articles_per_source] is local to one call of [parse], and
    [site_article_count] is never incremented.  The front page of
    [example.com] links to a section and to thirty articles, the section
    page to thirty other articles: sixty distinct article requests are
    issued for the domain, with the default cap of fifty. *)
Theorem article_cap_exceeded_across_pages :
  Spider.max_articles_per_source Spider.init = 50
  ∧ length (Crawl.article_requests "example.com"
              (Crawl.crawl Crawl.netloc Samples.every_request_builds
                  [Samples.seed]
                 [Samples.front_page; Samples.world_page]).1) = 60
  ∧ NoDup (Spider.req_url <$>
             Crawl.article_requests "example.com"
               (Crawl.crawl Crawl.netloc Samples.every_request_builds
                   [Samples.seed]
                  [Samples.front_page; Samples.world_page]).1)
  ∧ Spider.site_article_count
      (Crawl.crawl Crawl.netloc Samples.every_request_builds
          [Samples.seed]
         [Samples.front_page; Samples.world_page]).2 !! "example.com"
    = Some 0.
Proof.
  split; [reflexivity|]. split; [vm_compute; reflexivity|].
  split; [|vm_compute; reflexivity].
  apply (bool_decide_unpack _). vm_compute. exact I.
Qed.

(** C3 fails on the code: article links are neither looked up in
    [processed_urls] nor added to it.  The front page and the section
    page of [example.com] both link to one article: it is requested
    twice, and it is not in [processed_urls] at the end of the run. *)
Theorem shared_article_requested_twice :
  length (Crawl.requests_for Samples.shared_article
            (Crawl.crawl Crawl.netloc Samples.every_request_builds
                [Samples.seed]
               [Samples.home_page; Samples.world_page_again]).1) = 2
  ∧ Samples.shared_article
    ∉ Spider.processed_urls
        (Crawl.crawl Crawl.netloc Samples.every_request_builds
            [Samples.seed]
           [Samples.home_page; Samples.world_page_again]).2.
Proof.
  split; [vm_compute; reflexivity|].
  apply (bool_decide_unpack _). vm_compute. exact I.
Qed.

(** The section page itself, a follow-up, is requested once and
    recorded. *)
Example section_page_requested_once :
  length (Crawl.requests_for Samples.world_url
            (Crawl.crawl Crawl.netloc Samples.every_request_builds
                [Samples.seed]
               [Samples.home_page; Samples.world_page_again;
                Samples.home_page]).1) = 1
  ∧ Samples.world_url
    ∈ Spider.processed_urls
        (Crawl.crawl Crawl.netloc Samples.every_request_builds
            [Samples.seed]
           [Samples.home_page; Samples.world_page_again;
            Samples.home_page]).2.
Proof.
  split; [vm_compute; reflexivity|].
  apply (bool_decide_unpack _). vm_compute. exact I.
Qed.

(** A seed is recorded but not looked up: listed twice, it is requested
    twice. *)
Example seed_listed_twice :
  Spider.req_url
    <$> (Spider.start_requests Samples.every_request_builds
           [Samples.seed; "example.com"] Spider.init).1
  = [Samples.seed; Samples.seed].
Proof. vm_compute. reflexivity. Qed.

(** ** The extraction chain *)

Section Extraction.

Import Spider.

Variable strip_markup : string → string.

(** When the structured tier yields at least 100 characters after
    stripping, the later tiers are not run. *)
Lemma structured_content_stops_chain page st :
  too_short (page_trafilatura page) = false →
  (parse_article strip_markup page st).2 = [TierTrafilatura].
Proof.
  intros H. unfold parse_article, extract_content. rewrite H.
  destruct (page_trafilatura page) as [c|]; [|done].
  destruct (_ && _); [|done].
  destruct (page_days_old page) as [days|]; [|done].
  by destruct (_ <=? _)%Z.
Qed.


(** Whatever tier the content came from, an appended article is labelled
    with the structured tier. *)
Lemma appended_article_method page st :
  articles (parse_article strip_markup page st).1 = articles st
  ∨ ∃ a, articles (parse_article strip_markup page st).1 = articles st ++ [a]
         ∧ art_extraction_method a = "trafilatura".
Proof.
  unfold parse_article. destruct (extract_content strip_markup page) as [c tiers].
  repeat case_match; simpl; eauto.
Qed.

End Extraction.

(** C4 fails on the code: [extraction_method] is the constant
    ['trafilatura'].  On a page where the structured extraction returns
    nothing and the [article] selector returns 150 characters, the
    selector tier is the first to produce content, and the article is
    stored with the content of that tier under the method
    ['trafilatura']. *)
Theorem selector_content_labelled_structured :
  (Spider.parse_article Samples.no_markup Samples.css_only_page Spider.init).2
  = [Spider.TierTrafilatura; Spider.TierCss]
  ∧ (λ a, (art_content a, art_extraction_method a))
    <$> Spider.articles
          (Spider.parse_article Samples.no_markup Samples.css_only_page
             Spider.init).1
    = [(Py.repeat_char "x" 150, "trafilatura")].
Proof. split; vm_compute; reflexivity. Qed.

(** With 150 characters from the structured tier, only that tier runs. *)
Example structured_page_one_tier :
  (Spider.parse_article Samples.no_markup Samples.structured_page Spider.init).2
  = [Spider.TierTrafilatura]
  ∧ (λ a, (art_content a, art_extraction_method a))
    <$> Spider.articles
          (Spider.parse_article Samples.no_markup Samples.structured_page
             Spider.init).1
    = [(Py.repeat_char "y" 150, "trafilatura")].
Proof. split; vm_compute; reflexivity. Qed.

(** ** The relevance stage *)

Section Relevance.

Import Pipeline.

Variable relevance_llm : nat → string → string → Reply.

(** The vote loop returns exactly when the accumulator reaches five. *)
Lemma collect_votes_spec batch j lines acc acc' returned :
  (length acc < 5)%nat →
  collect_votes batch j lines acc = (acc', returned) →
  if returned then length acc' = 5 else (length acc' < 5)%nat.
Proof.
  revert j acc. induction lines as [|line lines IH]; intros j acc Hacc;
    cbn [collect_votes].
  - by intros [= <- <-].
  - destruct (batch !! j) as [a|]; [|by apply IH].
    destruct (Py.contains "Yes" (Py.strip line)); [|by apply IH].
    destruct (5 <=? length (acc ++ [a]))%nat eqn:H5.
    + intros [= <- <-]. apply Nat.leb_le in H5.
      rewrite length_app in *. simpl in *. lia.
    + apply Nat.leb_gt in H5. by apply IH.
Qed.

Lemma filter_batches_bound bi n batches acc :
  (length acc < 5)%nat →
  (length (filter_batches relevance_llm bi n batches acc).1 ≤ 5)%nat.
Proof.
  revert n acc. induction batches as [|b batches IH]; intros n acc Hacc;
    cbn [filter_batches app].
  - simpl. lia.
  - destruct (relevance_llm n bi (articles_text b)) as [|[|] content].
    + specialize (IH (S n) acc Hacc).
      by destruct (filter_batches relevance_llm bi (S n) batches acc).
    + destruct (collect_votes _ _ _ _) as [acc' returned] eqn:Hc.
      apply collect_votes_spec in Hc; [|done].
      destruct returned; simpl; [lia|].
      specialize (IH (S n) acc' Hc).
      by destruct (filter_batches relevance_llm bi (S n) batches acc').
    + specialize (IH (S n) acc Hacc).
      by destruct (filter_batches relevance_llm bi (S n) batches acc).
Qed.

(** Once the batches [pre] have produced five relevant articles, what
    follows them is not looked at: the result and the calls are those of
    [pre] alone. *)
Lemma filter_batches_stop bi n pre post acc :
  (length acc < 5)%nat →
  length (filter_batches relevance_llm bi n pre acc).1 = 5 →
  filter_batches relevance_llm bi n (pre ++ post) acc
  = filter_batches relevance_llm bi n pre acc.
Proof.
  revert n acc. induction pre as [|b pre IH]; intros n acc Hacc;
    cbn [filter_batches app].
  - simpl. lia.
  - destruct (relevance_llm n bi (articles_text b)) as [|[|] content].
    + intros H5. rewrite IH; [done|done|].
      by destruct (filter_batches relevance_llm bi (S n) pre acc).
    + destruct (collect_votes _ _ _ _) as [acc' returned] eqn:Hc.
      apply collect_votes_spec in Hc; [|done].
      destruct returned; [done|].
      intros H5. rewrite IH; [done|done|].
      by destruct (filter_batches relevance_llm bi (S n) pre acc').
    + intros H5. rewrite IH; [done|done|].
      by destruct (filter_batches relevance_llm bi (S n) pre acc).
Qed.

(** At most one call per batch. *)
Lemma filter_batches_calls bi n batches acc :
  (length (filter_batches relevance_llm bi n batches acc).2 ≤ length batches)%nat.
Proof.
  revert n acc. induction batches as [|b batches IH]; intros n acc;
    cbn [filter_batches].
  - simpl. lia.
  - destruct (relevance_llm n bi (articles_text b)) as [|[|] content].
    + specialize (IH (S n) acc).
      destruct (filter_batches relevance_llm bi (S n) batches acc). simpl in *. lia.
    + destruct (collect_votes _ _ _ _) as [acc' returned].
      destruct returned; simpl; [lia|].
      specialize (IH (S n) acc').
      destruct (filter_batches relevance_llm bi (S n) batches acc'). simpl in *. lia.
    + specialize (IH (S n) acc).
      destruct (filter_batches relevance_llm bi (S n) batches acc). simpl in *. lia.
Qed.

Lemma filter_batches_relevance_calls bi n batches acc :
  Forall (λ c, ∃ t, c = RelevanceCall bi t)
    (filter_batches relevance_llm bi n batches acc).2.
Proof.
  revert n acc. induction batches as [|b batches IH]; intros n acc;
    cbn [filter_batches].
  - constructor.
  - destruct (relevance_llm n bi (articles_text b)) as [|[|] content].
    + specialize (IH (S n) acc).
      destruct (filter_batches relevance_llm bi (S n) batches acc).
      constructor; eauto.
    + destruct (collect_votes _ _ _ _) as [acc' returned].
      destruct returned; simpl; [repeat constructor; eauto|].
      specialize (IH (S n) acc').
      destruct (filter_batches relevance_llm bi (S n) batches acc').
      constructor; eauto.
    + specialize (IH (S n) acc).
      destruct (filter_batches relevance_llm bi (S n) batches acc).
      constructor; eauto.
Qed.

(** C7: [batch_filter_articles] returns at most five articles, and when
    a prefix of the batches already yields the fifth relevant article the
    function returns what that prefix yields, with the calls of that
    prefix only: the batches after it are not processed and no call is
    made for them. *)
Theorem relevance_cap_and_early_return arts bi :
  (length (batch_filter_articles relevance_llm arts bi).1 ≤ 5)%nat
  ∧ ∀ pre post,
      batches_of arts = pre ++ post →
      length (filter_batches relevance_llm bi 0 pre []).1 = 5 →
      batch_filter_articles relevance_llm arts bi
      = filter_batches relevance_llm bi 0 pre []
      ∧ (length (batch_filter_articles relevance_llm arts bi).2
         ≤ length pre)%nat.
Proof.
  unfold batch_filter_articles. destruct arts as [|a arts].
  - split; [simpl; lia|]. intros pre post Hb.
    destruct pre; [simpl; lia|discriminate].
  - split; [apply filter_batches_bound; simpl; lia|].
    intros pre post -> H5.
    rewrite filter_batches_stop by (done || simpl; lia).
    split; [done|apply filter_batches_calls].
Qed.

(** The stage as a whole never leaves more than five relevant
    articles. *)
Lemma filter_articles_async_cap st st' calls :
  filter_articles_async relevance_llm st = (Return st', calls) →
  (length (relevant_articles st') ≤ 5)%nat.
Proof.
  unfold filter_articles_async. destruct (st_articles st); [intros [= <- _]; simpl; lia|].
  destruct (pre_filter_articles _ _) as [[|p pre]|]; [intros [= <- _]; simpl; lia| |done].
  destruct (batch_filter_articles _ _ _) as [rel cs] eqn:Hb.
  intros [= <- _]. simpl.
  unfold batch_filter_articles in Hb.
  pose proof (filter_batches_bound (business_interest st) 0
                (batches_of (p :: pre)) []) as Hle.
  rewrite Hb in Hle. apply Hle. simpl. lia.
Qed.

End Relevance.

(** Twelve articles, every vote a yes: the first batch fills the cap and
    the two other batches are never sent. *)
Lemma relevance_cap_and_early_return_witness :
  (length (Pipeline.batch_filter_articles Samples.eager_llm
             (Samples.numbered_article <$> seq 1 12) "markets").1 ≤ 5)%nat
  ∧ Pipeline.batch_filter_articles Samples.eager_llm
      (Samples.numbered_article <$> seq 1 12) "markets"
    = Pipeline.filter_batches Samples.eager_llm "markets" 0
        [Samples.numbered_article <$> seq 1 5] []
  ∧ (length (Pipeline.batch_filter_articles Samples.eager_llm
               (Samples.numbered_article <$> seq 1 12) "markets").2 ≤ 1)%nat.
Proof.
  destruct (relevance_cap_and_early_return Samples.eager_llm
              (Samples.numbered_article <$> seq 1 12) "markets") as [Hcap Hstop].
  split; [exact Hcap|].
  apply (Hstop [Samples.numbered_article <$> seq 1 5]
               [Samples.numbered_article <$> seq 6 5;
                Samples.numbered_article <$> seq 11 2]).
  - vm_compute. reflexivity.
  - vm_compute. reflexivity.
Defined.

Example twelve_articles_five_kept :
  art_url <$> (Pipeline.batch_filter_articles Samples.eager_llm
                 (Samples.numbered_article <$> seq 1 12) "markets").1
  = Samples.article_url <$> seq 1 5
  ∧ length (Pipeline.batch_filter_articles Samples.eager_llm
              (Samples.numbered_article <$> seq 1 12) "markets").2 = 1
  ∧ length (Pipeline.batch_filter_articles Samples.reluctant_llm
              (Samples.numbered_article <$> seq 1 12) "markets").2 = 3.
Proof. split; [|split]; vm_compute; reflexivity. Qed.

(** ** The summary stage *)

Section Summaries.

Import Pipeline.

Variable relevance_llm : nat → string → string → Reply.
Variable summary_llm : nat → string → string → Reply.
Variable spider : list (list string) → Scraper.Outcome.

Lemma split_nonempty c s : Py.split c s ≠ [].
Proof. destruct s as [|a s]; simpl; [done|]. by repeat case_match. Qed.

(** [content.split('.')] is never empty, so the branch that takes the
    first 200 characters is never taken. *)
Lemma fallback_summary_joins content :
  fallback_summary content
  = Py.join ". " (take 3 (Py.split "."%char content)) +:+ ".".
Proof.
  unfold fallback_summary.
  pose proof (split_nonempty "."%char content).
  by destruct (Py.split "."%char content).
Qed.

(** Without relevant articles the stage sets the sentinel and calls
    nobody. *)
Lemma summarize_nothing st :
  relevant_articles st = [] →
  summarize_articles_async summary_llm st = (set_summary NO_RELEVANT st, []).
Proof. unfold summarize_articles_async. by intros ->. Qed.

(** The filter stage only makes relevance calls. *)
Lemma filter_articles_async_calls st res calls :
  filter_articles_async relevance_llm st = (res, calls) →
  Forall (λ c, ∃ t, c = RelevanceCall (business_interest st) t) calls.
Proof.
  unfold filter_articles_async, batch_filter_articles.
  destruct (st_articles st); [by intros [= _ <-]|].
  destruct (pre_filter_articles _ _) as [[|p pre]|]; [by intros [= _ <-]| |by intros [= _ <-]].
  pose proof (filter_batches_relevance_calls relevance_llm
                (business_interest st) 0 (batches_of (p :: pre)) []) as Hc.
  destruct (filter_batches _ _ _ _ _) as [rel cs]. by intros [= _ <-].
Qed.

Lemma preprocess_interest st e :
  business_interest (preprocess spider st e).1 = business_interest st.
Proof. unfold preprocess. by destruct (Scraper.run_scraper _ _ _ _). Qed.

(** C9: when the filter stage hands over no relevant article, the run
    returns the fixed message "No relevant information found for this
    topic." and the calls of the run are those of the filter stage, all
    of them relevance calls: no summary call is made. *)
Theorem empty_relevance_gives_sentinel bi srcs e st2 calls :
  filter_articles_async relevance_llm
    (preprocess spider (mkMyState bi srcs [] [] "" None) e).1
  = (Return st2, calls) →
  relevant_articles st2 = [] →
  run_summary (get_news_async relevance_llm summary_llm spider bi srcs e)
  = Return NO_RELEVANT
  ∧ run_calls (get_news_async relevance_llm summary_llm spider bi srcs e)
    = calls
  ∧ Forall (λ c, ∃ t, c = RelevanceCall bi t) calls.
Proof.
  intros Hf Hrel. unfold get_news_async.
  pose proof (filter_articles_async_calls _ _ _ Hf) as Hcalls.
  rewrite preprocess_interest in Hcalls. simpl in Hcalls.
  destruct (preprocess _ _ _) as [st1 e1]. simpl in Hf. rewrite Hf.
  rewrite (summarize_nothing _ Hrel). simpl.
  by rewrite app_nil_r.
Qed.

End Summaries.

(** No article scraped at all: the sentinel, and no call. *)
Lemma empty_relevance_gives_sentinel_witness :
  Pipeline.run_summary
    (Pipeline.get_news_async Samples.reluctant_llm Samples.flaky_llm
       Samples.silent_spider "markets" ["example.com"] Samples.fresh_env)
  = Return Pipeline.NO_RELEVANT
  ∧ Pipeline.run_calls
      (Pipeline.get_news_async Samples.reluctant_llm Samples.flaky_llm
         Samples.silent_spider "markets" ["example.com"] Samples.fresh_env)
    = []
  ∧ Forall (λ c, ∃ t, c = Pipeline.RelevanceCall "markets" t) [].
Proof.
  apply (empty_relevance_gives_sentinel Samples.reluctant_llm Samples.flaky_llm
           Samples.silent_spider "markets" ["example.com"] Samples.fresh_env
           (Pipeline.mkMyState "markets" ["example.com"] [] [] "" None) []).
  - vm_compute. reflexivity.
  - reflexivity.
Defined.

(** One article scraped and voted down: the sentinel after one relevance
    call. *)
Example voted_down_gives_sentinel :
  Pipeline.run_summary
    (Pipeline.get_news_async Samples.reluctant_llm Samples.flaky_llm
       Samples.growing_spider "markets" ["example.com"] Samples.fresh_env)
  = Return "No relevant information found for this topic."
  ∧ length (Pipeline.run_calls
              (Pipeline.get_news_async Samples.reluctant_llm Samples.flaky_llm
                 Samples.growing_spider "markets" ["example.com"]
                 Samples.fresh_env)) = 1.
Proof. split; vm_compute; reflexivity. Qed.

(** C8 fails on the code: [content.split('.')[:3]] is never empty, so the
    200-character branch of the fallback is dead.  The summary call
    raises for an article of 300 characters without a full stop: its
    summary in the report is the whole content followed by a full stop,
    301 characters, not the first 200.  The second article gets the
    collaborator summary and the report is complete. *)
Theorem fallback_keeps_unpunctuated_content :
  Pipeline.fallback_summary (art_content Samples.unpunctuated_article)
  = Py.repeat_char "a" 300 +:+ "."
  ∧ Pipeline.fallback_summary (art_content Samples.unpunctuated_article)
    ≠ Py.take 200 (art_content Samples.unpunctuated_article) +:+ "..."
  ∧ Pipeline.summarize_articles_async Samples.flaky_llm
      (Pipeline.mkMyState "markets" [] []
         [Samples.unpunctuated_article; Samples.numbered_article 2] "" None)
    = (Pipeline.mkMyState "markets" [] []
         [Samples.unpunctuated_article; Samples.numbered_article 2]
         (Py.join Py.nl
            [ "# 📰 Latest News Summary"; "";
              "**Topic:** markets"; "**Articles Found:** 2"; ""; "---"; "";
              "## 📄 Article 1"; ""; "**Title:** Ticker"; "";
              "**Source:** https://example.com/article/7"; "";
              "**Summary:**"; ""; Py.repeat_char "a" 300 +:+ ".";
              ""; "---"; "";
              "## 📄 Article 2"; ""; "**Title:** Report 2"; "";
              "**Source:** https://example.com/article/2"; "";
              "**Summary:**"; ""; "Prices fell.";
              ""; "---"; "";
              "*Generated by News Analyzer*" ])
         None,
       [ Pipeline.SummaryCall "Ticker" (Py.repeat_char "a" 300);
         Pipeline.SummaryCall "Report 2" (Py.repeat_char "b" 120) ]).
Proof.
  split; [vm_compute; reflexivity|].
  split; [vm_compute; discriminate|].
  vm_compute. reflexivity.
Qed.

(** With sentences, the fallback is the first three of them. *)
Example fallback_first_three_sentences :
  Pipeline.fallback_summary "Rates rose. Bonds fell. Stocks held. Gold slid."
  = "Rates rose.  Bonds fell.  Stocks held.".
Proof. reflexivity. Qed.

(** * Further properties of the spider *)

Section LinkFacts.

Import Spider Crawl.

Variable netloc : string → option string.

(** The links that [extract_links] hands to the link loop are distinct,
    are among the hrefs of the page, and all pass [is_valid_url]. *)
Lemma extract_links_distinct_valid r domain :
  NoDup (extract_links netloc r domain)
  ∧ ∀ l, l ∈ extract_links netloc r domain ↔
         l ∈ resp_hrefs r ∧ is_valid_url netloc l domain = true.
Proof.
  unfold extract_links. split; [apply NoDup_remove_dups|].
  intros l. rewrite elem_of_remove_dups, list_elem_of_filter. tauto.
Qed.

(** In the [if]/[elif] chain, a valid link takes no branch exactly when
    it matches a skip pattern and neither a category nor a pagination
    pattern. *)
Lemma classify_reject_iff r domain l :
  l ∈ extract_links netloc r domain →
  (classify netloc l domain = KReject ↔
   Re.any_search skip_patterns l = true
   ∧ is_category_page l domain = false
   ∧ is_pagination_link l domain = false).
Proof.
  unfold extract_links. rewrite elem_of_remove_dups, list_elem_of_filter.
  intros [Hv _]. unfold is_valid_url in Hv.
  unfold classify, is_likely_article_url, is_internal_link.
  destruct (Re.any_search skip_patterns l).
  - destruct (is_category_page l domain), (is_pagination_link l domain);
      split; (done || by intros (_ & ? & ?)).
  - rewrite Hv.
    destruct (Re.any_search article_patterns l), (50 <? String.length l)%nat,
      (is_category_page l domain), (is_pagination_link l domain);
      split; (done || by intros (? & _)).
Qed.

Lemma scan_of_nil k : scan_of k scan_nil = [].
Proof. by destruct k. Qed.

Lemma scan_add_of k' k x sc l :
  l ∈ scan_of k' (scan_add k x sc)
  ↔ (k' = k ∧ k ≠ KReject ∧ l = x) ∨ l ∈ scan_of k' sc.
Proof.
  destruct k', k; simpl; rewrite ?elem_of_cons; naive_solver.
Qed.

(** What the loop puts in an outcome is a link of the page of that
    kind. *)
Lemma scan_links_sound max_articles domain count links k l :
  l ∈ scan_of k (scan_links netloc max_articles domain count links) →
  l ∈ links ∧ classify netloc l domain = k.
Proof.
  revert count. induction links as [|x links IH]; intros count;
    cbn [scan_links].
  - rewrite scan_of_nil. by intros ?%elem_of_nil.
  - destruct (max_articles <=? count)%nat.
    + rewrite scan_of_nil. by intros ?%elem_of_nil.
    + rewrite scan_add_of. intros [(-> & _ & ->)|Hin].
      * split; [by left|done].
      * apply IH in Hin as [? ?]. split; [by right|done].
Qed.

(** While the loop does not break, every link that takes a branch is in
    the outcome of its kind. *)
Lemma scan_links_complete max_articles domain count links l :
  (count + length (filter (λ x, classify netloc x domain = KArticle) links)
   < max_articles)%nat →
  l ∈ links →
  classify netloc l domain ≠ KReject →
  l ∈ scan_of (classify netloc l domain)
        (scan_links netloc max_articles domain count links).
Proof.
  revert count. induction links as [|x links IH]; intros count Hroom Hin Hk;
    cbn [scan_links].
  - by apply elem_of_nil in Hin.
  - destruct (max_articles <=? count)%nat eqn:Hfull.
    { apply Nat.leb_le in Hfull. lia. }
    rewrite scan_add_of.
    apply elem_of_cons in Hin as [->|Hin]; [by left|]. right.
    apply IH; [|done|done].
    destruct (decide (classify netloc x domain = KArticle)) as [Hx|Hx].
    + rewrite filter_cons_True in Hroom by done. rewrite Hx.
      simpl in Hroom. lia.
    + rewrite filter_cons_False in Hroom by done.
      by destruct (classify netloc x domain).
Qed.

(** On a page with fewer article links than the cap, so that the link
    loop of [parse] does not break, a link returned by [extract_links]
    ends in none of the outcomes of the loop (article request, category,
    pagination or internal list) exactly when it matches a skip pattern
    and neither a category nor a pagination pattern. *)
Theorem link_dropped_iff r domain max_articles l :
  (length (filter (λ x, classify netloc x domain = KArticle)
             (extract_links netloc r domain)) < max_articles)%nat →
  l ∈ extract_links netloc r domain →
  ((l ∉ scan_articles
          (scan_links netloc max_articles domain 0
             (extract_links netloc r domain)))
   ∧ (l ∉ scan_category
            (scan_links netloc max_articles domain 0
               (extract_links netloc r domain)))
   ∧ (l ∉ scan_pagination
            (scan_links netloc max_articles domain 0
               (extract_links netloc r domain)))
   ∧ (l ∉ scan_internal
            (scan_links netloc max_articles domain 0
               (extract_links netloc r domain)))
   ↔ Re.any_search skip_patterns l = true
     ∧ is_category_page l domain = false
     ∧ is_pagination_link l domain = false).
Proof.
  intros Hroom Hin. rewrite <- (classify_reject_iff r domain l Hin).
  set (sc := scan_links netloc max_articles domain 0
               (extract_links netloc r domain)).
  split.
  - intros (Ha & Hc & Hp & Hi).
    destruct (decide (classify netloc l domain = KReject)) as [|Hk]; [done|].
    pose proof (scan_links_complete max_articles domain 0
                  (extract_links netloc r domain) l Hroom Hin Hk) as Hmem.
    fold sc in Hmem.
    destruct (classify netloc l domain); simpl in Hmem; done.
  - intros Hrej.
    assert (∀ k, l ∈ scan_of k sc → False) as Hnone.
    { intros k Hmem. pose proof (scan_links_sound _ _ _ _ _ _ Hmem) as [_ Hk].
      rewrite Hrej in Hk. subst k. by apply elem_of_nil in Hmem. }
    split_and!; intros Hmem.
    + by apply (Hnone KArticle).
    + by apply (Hnone KCategory).
    + by apply (Hnone KPagination).
    + by apply (Hnone KInternalNav).
Qed.

End LinkFacts.

(** A page with a login link and a section link: the login link is in
    no outcome of the loop. *)
Lemma link_dropped_iff_witness :
  let sc :=
    Spider.scan_links Crawl.netloc 50 "example.com" 0
      (Spider.extract_links Crawl.netloc
         (Spider.mkResponse Samples.seed 0
            ["https://example.com/login"; Samples.world_url])
         "example.com") in
  ("https://example.com/login" ∉ Spider.scan_articles sc)
  ∧ ("https://example.com/login" ∉ Spider.scan_category sc)
  ∧ ("https://example.com/login" ∉ Spider.scan_pagination sc)
  ∧ ("https://example.com/login" ∉ Spider.scan_internal sc).
Proof.
  intros sc. subst sc.
  destruct (link_dropped_iff Crawl.netloc
              (Spider.mkResponse Samples.seed 0
                 ["https://example.com/login"; Samples.world_url])
              "example.com" 50 "https://example.com/login") as [_ Hdrop].
  - vm_compute. lia.
  - apply (bool_decide_unpack _). vm_compute. exact I.
  - apply Hdrop. split; [|split]; reflexivity.
Defined.

Section FrontierFacts.

Import Spider Crawl.

Variable netloc : string → option string.

(** Over a whole run, whatever pages are parsed and in whatever order, no
    follow-up URL (category, pagination or internal link) is requested
    twice; none is requested that [processed_urls] held at the start, and
    each one is in [processed_urls] at the end. *)
Theorem followups_never_repeat pages st :
  NoDup (followup_urls (run netloc pages st).1)
  ∧ ∀ u, u ∈ followup_urls (run netloc pages st).1 →
         (u ∉ processed_urls st)
         ∧ (u ∈ processed_urls (run netloc pages st).2).
Proof.
  destruct (run netloc pages st) as [rs st'] eqn:Hr.
  apply run_followups in Hr as (Hnd & Hfresh & Hset). simpl.
  split; [done|]. intros u Hu. split; [by apply Hfresh|].
  rewrite Hset. set_solver.
Qed.

Lemma follow_links_shape domain depth links seen :
  (length (follow_links domain depth links seen).1 ≤ length links)%nat
  ∧ Forall (λ rq, req_depth rq = S depth ∧ req_domain rq = Some domain)
      (follow_links domain depth links seen).1.
Proof.
  revert seen. induction links as [|l links IH]; intros seen; simpl.
  - split; [lia|constructor].
  - destruct (decide (l ∈ seen)).
    + destruct (IH seen). split; [lia|done].
    + destruct (IH ({[l]} ∪ seen)) as [Hlen Hall].
      destruct (follow_links domain depth links ({[l]} ∪ seen)) as [rs seen'].
      simpl in *. split; [lia|]. by constructor.
Qed.

Lemma follow_shape cap domain depth max_d links seen :
  (length (follow cap domain depth max_d links seen).1 ≤ cap)%nat
  ∧ Forall (λ rq, req_depth rq = S depth ∧ req_domain rq = Some domain
                  ∧ (depth < max_d)%nat)
      (follow cap domain depth max_d links seen).1.
Proof.
  unfold follow. destruct links as [|l links]; [split; [simpl; lia|constructor]|].
  destruct (depth <? max_d)%nat eqn:Hd; [|split; [simpl; lia|constructor]].
  apply Nat.ltb_lt in Hd.
  destruct (follow_links_shape domain depth (take cap (l :: links)) seen)
    as [Hlen Hall].
  split.
  - etrans; [exact Hlen|]. rewrite length_take. lia.
  - eapply Forall_impl; [exact Hall|]. naive_solver.
Qed.

(** One page yields at most seven follow-up requests (three category, two
    pagination, two internal links); each carries the depth of the page
    plus one and the domain of the page, and that depth never exceeds
    [max_depth]: a page at depth [max_depth] or deeper is not followed. *)
Theorem parse_followups_bounded r st :
  (length (filter is_followup (parse netloc r st).1) ≤ 7)%nat
  ∧ Forall (λ rq, is_followup rq →
                  req_depth rq = S (resp_depth r)
                  ∧ req_domain rq = netloc (resp_url r)
                  ∧ (req_depth rq ≤ max_depth st)%nat)
      (parse netloc r st).1.
Proof.
  unfold parse. destruct (netloc (resp_url r)) as [d|];
    [|split; [simpl; lia|constructor]].
  destruct (_ <? _)%nat; [split; [simpl; lia|constructor]|].
  set (st1 := enter_page d (resp_depth r) st).
  set (sc := scan_links _ _ _ _ _).
  pose proof (follow_shape 3 d (resp_depth r) (max_depth st1)
                (scan_category sc) (processed_urls st1)) as [L1 A1].
  destruct (follow 3 _ _ _ _ _) as [r1 seen1].
  pose proof (follow_shape 2 d (resp_depth r) (max_depth st1)
                (scan_pagination sc) seen1) as [L2 A2].
  destruct (follow 2 _ _ _ (scan_pagination _) _) as [r2 seen2].
  pose proof (follow_shape 2 d (resp_depth r) (max_depth st1)
                (scan_internal sc) seen2) as [L3 A3].
  destruct (follow 2 _ _ _ (scan_internal _) _) as [r3 seen3].
  simpl in *. split.
  - rewrite !filter_app, !length_app.
    pose proof (followup_urls_articles d (resp_depth r) (scan_articles sc)) as Ha.
    unfold followup_urls in Ha. apply fmap_nil_inv in Ha. rewrite Ha. simpl.
    pose proof (length_filter is_followup r1).
    pose proof (length_filter is_followup r2).
    pose proof (length_filter is_followup r3). lia.
  - rewrite !Forall_app. split_and!.
    + apply Forall_forall. intros rq [l [-> _]]%list_elem_of_fmap [Hcb _].
      discriminate.
    + eapply Forall_impl; [exact A1|]. intros rq (-> & -> & ?) _.
      split_and!; [done|done|lia].
    + eapply Forall_impl; [exact A2|]. intros rq (-> & -> & ?) _.
      split_and!; [done|done|lia].
    + eapply Forall_impl; [exact A3|]. intros rq (-> & -> & ?) _.
      split_and!; [done|done|lia].
Qed.

End FrontierFacts.

Section CapFacts.

Import Spider Crawl.

Variable netloc : string → option string.

(** What [parse] does to the caps and to the page counters: the caps are
    constants, and the counter of the page's domain grows by one. *)
Lemma parse_counters r st :
  max_pages_per_source (parse netloc r st).2 = max_pages_per_source st
  ∧ max_articles_per_source (parse netloc r st).2 = max_articles_per_source st
  ∧ ∀ d, pages_seen (parse netloc r st).2 d
         = if decide (netloc (resp_url r) = Some d)
           then S (pages_seen st d) else pages_seen st d.
Proof.
  unfold parse, pages_seen. destruct (netloc (resp_url r)) as [d0|].
  2:{ split_and!; [done|done|]. intros d. by rewrite decide_False. }
  assert (∀ d, default 0 (site_page_count (enter_page d0 (resp_depth r) st) !! d)
               = if decide (Some d0 = Some d)
                 then S (default 0 (site_page_count st !! d))
                 else default 0 (site_page_count st !! d)) as Hc.
  { intros d. simpl. destruct (decide (Some d0 = Some d)) as [[= ->]|Hne].
    - by rewrite lookup_insert_eq.
    - rewrite lookup_insert_ne; [done|congruence]. }
  destruct (_ <? _)%nat; [done|].
  destruct (follow 3 _ _ _ _ _) as [r1 seen1].
  destruct (follow 2 _ _ _ (scan_pagination _) _) as [r2 seen2].
  destruct (follow 2 _ _ _ (scan_internal _) _) as [r3 seen3].
  done.
Qed.

(** Once a domain has had [max_pages_per_source] pages parsed, a further
    page of that domain yields no request at all. *)
Lemma parse_over_cap r st d :
  netloc (resp_url r) = Some d →
  (max_pages_per_source st ≤ pages_seen st d)%nat →
  (parse netloc r st).1 = [].
Proof.
  intros Hd Hcap. unfold parse, pages_seen in *. rewrite Hd.
  destruct (_ <? _)%nat eqn:Hlt; [done|].
  apply Nat.ltb_ge in Hlt. simpl in Hlt.
  rewrite lookup_insert_eq in Hlt. simpl in Hlt. lia.
Qed.

(** The article requests of a page all carry the domain of that page. *)
Lemma parse_articles_other_domain r st d :
  netloc (resp_url r) ≠ Some d →
  article_requests d (parse netloc r st).1 = [].
Proof.
  intros Hd. unfold parse. destruct (netloc (resp_url r)) as [d0|]; [|done].
  destruct (_ <? _)%nat; [done|].
  destruct (follow 3 _ _ _ _ _) as [r1 seen1] eqn:H1.
  destruct (follow 2 _ _ _ (scan_pagination _) _) as [r2 seen2] eqn:H2.
  destruct (follow 2 _ _ _ (scan_internal _) _) as [r3 seen3] eqn:H3.
  apply (follow_spec netloc) in H1 as (_ & _ & _ & A1).
  apply (follow_spec netloc) in H2 as (_ & _ & _ & A2).
  apply (follow_spec netloc) in H3 as (_ & _ & _ & A3).
  simpl. rewrite !article_requests_app.
  rewrite (article_requests_followups _ r1 A1),
    (article_requests_followups _ r2 A2),
    (article_requests_followups _ r3 A3), !app_nil_r.
  unfold article_requests.
  induction (scan_articles _) as [|l ls IH]; [done|].
  simpl. rewrite filter_cons_False; [done|]. simpl. intros [_ [= ->]]. done.
Qed.

Lemma run_article_budget pages st d :
  (length (article_requests d (run netloc pages st).1)
   ≤ (max_pages_per_source st - pages_seen st d) * max_articles_per_source st)%nat.
Proof.
  revert st. induction pages as [|r pages IH]; intros st; cbn [run].
  { cbn. apply Nat.le_0_l. }
  pose proof (parse_counters r st) as (Hmp & Hma & Hseen).
  pose proof (parse_article_cap netloc r st d) as Hcap.
  specialize (IH (parse netloc r st).2). specialize (Hseen d).
  destruct (decide (netloc (resp_url r) = Some d)) as [Hd|Hd].
  - destruct (decide (max_pages_per_source st ≤ pages_seen st d)%nat) as [Hover|Hok].
    + pose proof (parse_over_cap r st d Hd Hover) as Hnil.
      destruct (parse netloc r st) as [rq st1]. simpl in *. subst rq.
      destruct (run netloc pages st1) as [rqs st2]. simpl in *.
      rewrite Hmp, Hma, Hseen in IH. nia.
    + destruct (parse netloc r st) as [rq st1]. simpl in *.
      destruct (run netloc pages st1) as [rqs st2]. simpl in *.
      rewrite article_requests_app, length_app.
      rewrite Hmp, Hma, Hseen in IH. nia.
  - pose proof (parse_articles_other_domain r st d Hd) as Hnil.
    destruct (parse netloc r st) as [rq st1]. simpl in *.
    destruct (run netloc pages st1) as [rqs st2]. simpl in *.
    rewrite article_requests_app, Hnil. simpl.
    rewrite Hmp, Hma, Hseen in IH. lia.
Qed.

(** What the two caps do guarantee together: over a whole run, whatever
    pages are parsed, the article requests issued for one domain never
    exceed [max_pages_per_source] times [max_articles_per_source]. *)
Theorem articles_per_domain_budget pages st domain :
  (length (article_requests domain (run netloc pages st).1)
   ≤ max_pages_per_source st * max_articles_per_source st)%nat.
Proof.
  pose proof (run_article_budget pages st domain). nia.
Qed.

(** The page counter of a domain counts every page of that domain
    handed to [parse], those beyond the cap included. *)
Theorem page_counter_counts_pages pages st domain :
  pages_seen (run netloc pages st).2 domain
  = (pages_seen st domain
     + length (filter (λ r, netloc (resp_url r) = Some domain) pages))%nat.
Proof.
  revert st. induction pages as [|r pages IH]; intros st; cbn [run].
  { cbn. lia. }
  pose proof (parse_counters r st) as (_ & _ & Hseen).
  specialize (IH (parse netloc r st).2). specialize (Hseen domain).
  destruct (parse netloc r st) as [rq st1]. simpl in *.
  destruct (run netloc pages st1) as [rqs st2]. simpl in *.
  rewrite IH, Hseen.
  destruct (decide (netloc (resp_url r) = Some domain)).
  - rewrite filter_cons_True by done. simpl. lia.
  - by rewrite filter_cons_False.
Qed.

(** A page of a domain that already had [max_pages_per_source] pages
    parsed yields nothing and records nothing in [processed_urls]. *)
Theorem page_beyond_cap_is_dropped r st domain :
  netloc (resp_url r) = Some domain →
  (max_pages_per_source st ≤ pages_seen st domain)%nat →
  (parse netloc r st).1 = []
  ∧ processed_urls (parse netloc r st).2 = processed_urls st.
Proof.
  intros Hd Hcap. split; [by eapply parse_over_cap|].
  pose proof (parse_over_cap r st domain Hd Hcap) as Hnil.
  destruct (parse netloc r st) as [rq st1] eqn:Hp. simpl in *. subst rq.
  apply parse_followups in Hp as (_ & _ & ->). simpl. set_solver.
Qed.

End CapFacts.

Lemma page_beyond_cap_is_dropped_witness :
  (Spider.parse Crawl.netloc Samples.front_page
     (Crawl.run Crawl.netloc (replicate 10 Samples.home_page) Spider.init).2).1
  = []
  ∧ Spider.processed_urls
      (Spider.parse Crawl.netloc Samples.front_page
         (Crawl.run Crawl.netloc (replicate 10 Samples.home_page)
            Spider.init).2).2
    = Spider.processed_urls
        (Crawl.run Crawl.netloc (replicate 10 Samples.home_page) Spider.init).2.
Proof.
  apply (page_beyond_cap_is_dropped Crawl.netloc Samples.front_page _
           "example.com").
  - reflexivity.
  - vm_compute. lia.
Defined.

Section SeedFacts.

Import Spider Crawl.

Variable request_builds : string → bool.

Lemma prefix_cons_inv b p s :
  String.prefix (String b p) s = true →
  ∃ s', s = String b s' ∧ String.prefix p s' = true.
Proof.
  destruct s as [|a s]; [done|]. cbn [String.prefix].
  destruct (ascii_dec b a) as [->|]; [|done]. eauto.
Qed.

Lemma prefix_cons_eq b a s :
  String.prefix (String b EmptyString) (String a s)
  = if ascii_dec b a then true else false.
Proof.
  cbn [String.prefix]. destruct (ascii_dec b a); [by destruct s|done].
Qed.

Lemma prefix_cons_same a p s :
  String.prefix (String a p) (String a s) = String.prefix p s.
Proof.
  cbn [String.prefix]. destruct (ascii_dec a a) as [_|n]; [done|by destruct n].
Qed.

Lemma rstrip_keeps_prefix p s :
  p ≠ "" → Py.rstrip p = p →
  String.prefix p s = true → String.prefix p (Py.rstrip s) = true.
Proof.
  revert s. induction p as [|b p IH]; intros s Hne Hp Hpre; [done|].
  apply prefix_cons_inv in Hpre as (s' & -> & Hpre).
  cbn [Py.rstrip] in Hp |- *.
  destruct p as [|b' p'].
  - destruct (Py.is_space b) eqn:Hsp; [done|].
    destruct (Py.rstrip s'); rewrite ?Hsp; by rewrite prefix_cons_same.
  - assert (Py.rstrip (String b' p') = String b' p') as Hp'.
    { destruct (Py.rstrip (String b' p')) eqn:Hr.
      - by destruct (Py.is_space b).
      - congruence. }
    specialize (IH s' ltac:(done) Hp' Hpre).
    destruct (Py.rstrip s') eqn:Hs; [done|].
    by rewrite prefix_cons_same.
Qed.

Lemma strip_keeps_scheme p s :
  p = "http://" ∨ p = "https://" →
  Py.startswith p s = true → Py.startswith p (Py.strip s) = true.
Proof.
  unfold Py.startswith, Py.strip. intros Hp Hpre.
  assert (Py.lstrip s = s) as ->.
  { destruct Hp as [-> | ->];
      apply prefix_cons_inv in Hpre as (s' & -> & _); done. }
  apply rstrip_keeps_prefix; [| |done]; by destruct Hp as [-> | ->].
Qed.

Lemma prefix_append p s : String.prefix p (p +:+ s) = true.
Proof.
  induction p as [|a p IH]; [by destruct s|].
  change (String a p +:+ s) with (String a (p +:+ s)).
  by rewrite prefix_cons_same.
Qed.

Lemma normalize_seed_scheme u :
  Py.startswith "http://" (normalize_seed u) = true
  ∨ Py.startswith "https://" (normalize_seed u) = true.
Proof.
  unfold normalize_seed.
  destruct (Py.startswith "http://" u) eqn:H1;
    [|destruct (Py.startswith "https://" u) eqn:H2]; cbn [orb].
  - left. apply strip_keeps_scheme; [by left|done].
  - right. apply strip_keeps_scheme; [by right|done].
  - right. apply strip_keeps_scheme; [by right|apply prefix_append].
Qed.

(** Every seed request carries a URL that begins with [http://] or
    [https://] and has at least ten characters, for which the request
    could be built; it is a [parse] request at depth 0 without a domain,
    and the URL given to it is recorded in [processed_urls].  There is at
    most one request per seed.  [processed_urls] only grows, and only by
    normalised seeds of at least ten characters, those whose request
    could not be built included. *)
Theorem seed_requests_well_formed urls st :
  Forall (λ rq, (Py.startswith "http://" (req_url rq) = true
                 ∨ Py.startswith "https://" (req_url rq) = true)
                ∧ (10 ≤ String.length (req_url rq))%nat
                ∧ request_builds (req_url rq) = true
                ∧ req_callback rq = CbParse
                ∧ req_depth rq = 0%nat
                ∧ req_domain rq = None
                ∧ req_url rq
                  ∈ processed_urls (start_requests request_builds urls st).2)
    (start_requests request_builds urls st).1
  ∧ (length (start_requests request_builds urls st).1 ≤ length urls)%nat
  ∧ processed_urls (start_requests request_builds urls st).2
    = processed_urls st
      ∪ list_to_set
          (filter (λ url, (10 ≤ String.length url)%nat)
                  (normalize_seed <$> urls)).
Proof.
  revert st. induction urls as [|u urls IH]; intros st; cbn [start_requests].
  - simpl. split_and!; [constructor|lia|set_solver].
  - rewrite fmap_cons.
    destruct (negb _ || _) eqn:Hbad.
    + destruct (IH st) as (H1 & H2 & H3).
      assert (¬ (10 ≤ String.length (normalize_seed u))%nat) as Hshort.
      { apply orb_true_iff in Hbad as [Hempty|Hlen].
        - destruct (normalize_seed u); [simpl; lia|done].
        - apply Nat.ltb_lt in Hlen. lia. }
      rewrite filter_cons_False by done.
      split_and!; [done|simpl; lia|done].
    + specialize (IH (set_processed (λ s, {[normalize_seed u]} ∪ s) st)).
      apply orb_false_iff in Hbad as [_ Hlen]. apply Nat.ltb_ge in Hlen.
      rewrite filter_cons_True by done.
      destruct (start_requests request_builds urls _) as [rs st'].
      destruct IH as (H1 & H2 & H3). simpl in H1, H2, H3.
      assert (processed_urls st'
              = processed_urls st
                ∪ list_to_set
                    (normalize_seed u
                     :: filter (λ url, (10 ≤ String.length url)%nat)
                          (normalize_seed <$> urls))) as Hset.
      { rewrite H3. set_solver. }
      destruct (request_builds (normalize_seed u)) eqn:Hb; simpl.
      * split_and!; [|lia|done].
        constructor; [|done]. simpl.
        split_and!; [apply normalize_seed_scheme|done..|].
        rewrite Hset. set_solver.
      * split_and!; [done|lia|done].
Qed.

(** A seed whose request cannot be built is recorded all the same, and
    no request is yielded for it. *)
Example unbuildable_seed_is_recorded :
  (start_requests Samples.refuses_port_99999 ["example.com:99999"] init).1 = []
  ∧ "https://example.com:99999"
    ∈ processed_urls
        (start_requests Samples.refuses_port_99999 ["example.com:99999"]
           init).2.
Proof.
  split; [vm_compute; reflexivity|].
  apply (bool_decide_unpack _). vm_compute. exact I.
Qed.

End SeedFacts.

Section ExtractionFacts.

Import Spider.

Variable strip_markup : string → string.




(** An article is appended only with more than 100 characters of
    stripped content, taken from one of the three tiers, for a page whose
    age could be computed and is at most [max_age_days]; it carries the
    URL of the page. *)
Theorem accepted_article_long_and_recent page st a :
  articles (parse_article strip_markup page st).1 = articles st ++ [a] →
  (100 < String.length (Py.strip (art_content a)))%nat
  ∧ (∃ days, page_days_old page = Some days ∧ (days ≤ max_age_days st)%Z)
  ∧ art_url a = page_url page
  ∧ (page_trafilatura page = Some (art_content a)
     ∨ extract_with_css page = Some (art_content a)
     ∨ extract_basic_text strip_markup page = Some (art_content a)).
Proof.
  assert (∀ l : list Article, l = l ++ [a] → False) as Hno.
  { intros l H. apply (f_equal length) in H. rewrite length_app in H.
    simpl in H. lia. }
  unfold parse_article.
  assert (∀ c, (extract_content strip_markup page).1 = Some c →
               page_trafilatura page = Some c
               ∨ extract_with_css page = Some c
               ∨ extract_basic_text strip_markup page = Some c) as Hsrc.
  { intros c. unfold extract_content.
    destruct (too_short (page_trafilatura page));
      [destruct (too_short (extract_with_css page))|]; simpl; auto. }
  destruct (extract_content strip_markup page) as [[c|] tiers];
    [|intros H; by apply Hno in H].
  specialize (Hsrc c eq_refl).
  destruct (Py.truthy c && _) eqn:Hok; [|intros H; by apply Hno in H].
  destruct (page_days_old page) as [days|]; [|intros H; by apply Hno in H].
  destruct (days <=? max_age_days st)%Z eqn:Hage; [|intros H; by apply Hno in H].
  simpl. intros H. apply app_inv_head in H. injection H as <-. simpl.
  apply andb_true_iff in Hok as [_ Hlen]. apply Nat.ltb_lt in Hlen.
  apply Z.leb_le in Hage. split_and!; [done|by exists days|done|done].
Qed.

Lemma first_title_spec page sels t :
  first_title page sels = Some t →
  (5 < String.length t)%nat
  ∧ ∃ sel raw, sel ∈ sels ∧ page_css page (sel +:+ "::text") = Some raw
               ∧ t = Py.strip raw.
Proof.
  induction sels as [|sel sels IH]; simpl; [done|].
  destruct (page_css page (sel +:+ "::text")) as [raw|] eqn:Hsel.
  - destruct (Py.truthy raw && _) eqn:Hok.
    + intros [= <-]. apply andb_true_iff in Hok as [_ Hlen].
      apply Nat.ltb_lt in Hlen. split; [done|].
      exists sel, raw. split_and!; [by left|done|done].
    + intros H. destruct (IH H) as (? & s & r & ? & ? & ?).
      split; [done|]. exists s, r. split_and!; [by right|done|done].
  - intros H. destruct (IH H) as (? & s & r & ? & ? & ?).
    split; [done|]. exists s, r. split_and!; [by right|done|done].
Qed.

(** A title, when one is found, is the stripped text of one of the title
    selectors and has more than five characters. *)
Theorem extracted_title_is_stripped_text page t :
  extract_title page = Some t →
  (5 < String.length t)%nat
  ∧ ∃ sel raw, sel ∈ title_selectors
               ∧ page_css page (sel +:+ "::text") = Some raw
               ∧ t = Py.strip raw.
Proof. apply first_title_spec. Qed.

End ExtractionFacts.

Lemma accepted_article_long_and_recent_witness :
  (100 < String.length (Py.strip (Py.repeat_char "x" 150)))%nat
  ∧ (∃ days, Spider.page_days_old Samples.css_only_page = Some days
             ∧ (days ≤ Spider.max_age_days Spider.init)%Z).
Proof.
  destruct (accepted_article_long_and_recent Samples.no_markup
              Samples.css_only_page Spider.init
              {| art_url := Samples.shared_article;
                 art_title := None;
                 art_content := Py.repeat_char "x" 150;
                 art_publish_date := Some "2024-05-17T00:00:00";
                 art_domain := "example.com";
                 art_extraction_method := "trafilatura" |})
    as (Hlen & Hage & _).
  - vm_compute. reflexivity.
  - split; [exact Hlen|exact Hage].
Defined.

Lemma extracted_title_is_stripped_text_witness :
  (5 < String.length "Market update")%nat.
Proof.
  destruct (extracted_title_is_stripped_text
              (Spider.mkPage Samples.shared_article None None
                 (λ sel, if String.eqb sel "h1::text"
                         then Some "  Market update " else None)
                 "2024-05-17T00:00:00" (Some 0%Z))
              "Market update") as [Hlen _].
  - vm_compute. reflexivity.
  - exact Hlen.
Defined.

(** * Further properties of the scraper cache *)

Section CacheFacts.

Import Scraper.

Variable spider : list (list string) → Outcome.

(** The cache key is the sorted rearrangement of the sources, and two
    source lists have the same key exactly when one is a reordering of
    the other. *)
Theorem cache_key_sorted_permutation s1 s2 :
  Sorted str_le (cache_key s1)
  ∧ cache_key s1 ≡ₚ s1
  ∧ (cache_key s1 = cache_key s2 ↔ s1 ≡ₚ s2).
Proof.
  pose proof str_le_total.
  split_and!.
  - by apply Sorted_merge_sort.
  - apply merge_sort_Permutation.
  - split; [|apply cache_key_perm].
    intros Heq. rewrite <- (merge_sort_Permutation str_le s1),
      <- (merge_sort_Permutation str_le s2). unfold cache_key in Heq.
    by rewrite Heq.
Qed.

(** With the force-fresh flag the cache is bypassed: the spider is
    launched, once, whatever the cache held, and the call returns what
    that launch produced. *)
Theorem force_fresh_always_scrapes s e :
  launches (run_scraper spider s true e).2 = launches e ++ [s]
  ∧ (run_scraper spider s true e).1
    = match spider (launches e ++ [s]) with
      | LaunchRaised | OutputRaised => Raise
      | OutputMissing | OutputInvalid => Return []
      | OutputLoaded arts => Return arts
      end.
Proof.
  unfold run_scraper. rewrite cache_lookup_clear. simpl.
  by destruct (spider (launches e ++ [s])).
Qed.

(** A call that raises stores nothing under its key: the next call on
    the same sources, without the flag, launches the spider again. *)
Theorem raised_scrape_is_retried s (f : bool) e :
  (run_scraper spider s f e).1 = Raise →
  cache_lookup (cache_key s) (run_scraper spider s f e).2 = None
  ∧ launches (run_scraper spider s false (run_scraper spider s f e).2).2
    = launches e ++ [s; s].
Proof.
  intros Hraise.
  assert (cache_lookup (cache_key s) (run_scraper spider s f e).2 = None
          ∧ launches (run_scraper spider s f e).2 = launches e ++ [s])
    as [Hnone Hl].
  { revert Hraise. unfold run_scraper.
    destruct (cache_lookup (cache_key s) _) eqn:Hmiss; [done|].
    destruct (spider _); try done; intros _; simpl;
      (split; [exact Hmiss|by destruct f]). }
  split; [done|].
  unfold run_scraper at 1. rewrite Hnone.
  destruct (spider _); simpl; rewrite Hl, <- app_assoc; done.
Qed.

Lemma run_scraper_launches s (f : bool) e :
  launches (run_scraper spider s f e).2 = launches e
  ∨ launches (run_scraper spider s f e).2 = launches e ++ [s].
Proof.
  unfold run_scraper. destruct (cache_lookup _ _); [left; by destruct f|].
  right. destruct (spider _); simpl; by destruct f.
Qed.

(** The spider is launched at most once per call, never for a call that
    is not made, and the record of launches only grows. *)
Theorem launches_only_grow (calls : list (list string * bool)) e :
  launches e `prefix_of` launches (run_many spider calls e)
  ∧ (length (launches (run_many spider calls e))
     ≤ length (launches e) + length calls)%nat.
Proof.
  revert e. induction calls as [|[s f] calls IH]; intros e; simpl.
  - split; [done|lia].
  - destruct (IH (run_scraper spider s f e).2) as [Hp Hl].
    destruct (run_scraper_launches s f e) as [Heq|Heq]; rewrite Heq in Hp, Hl.
    + split; [done|lia].
    + split; [etrans; [by apply prefix_app_r|done]|].
      rewrite length_app in Hl. simpl in Hl. lia.
Qed.

End CacheFacts.

Lemma raised_scrape_is_retried_witness :
  Scraper.cache_lookup (Scraper.cache_key ["a.com"])
    (Scraper.run_scraper Samples.crashing_spider ["a.com"] false
       Samples.fresh_env).2 = None
  ∧ Scraper.launches
      (Scraper.run_scraper Samples.crashing_spider ["a.com"] false
         (Scraper.run_scraper Samples.crashing_spider ["a.com"] false
            Samples.fresh_env).2).2
    = Scraper.launches Samples.fresh_env ++ [["a.com"]; ["a.com"]].
Proof.
  apply (raised_scrape_is_retried Samples.crashing_spider ["a.com"] false
           Samples.fresh_env).
  reflexivity.
Defined.

(** * Further properties of the pipeline stages *)

Section PreFilterFacts.

Import Pipeline.

Lemma pre_filter_loop_raise geo topic bl arts :
  pre_filter_loop geo topic bl arts = Raise
  ↔ ∃ a, a ∈ arts ∧ art_title a = None.
Proof.
  induction arts as [|a arts IH]; cbn [pre_filter_loop].
  - split; [done|]. intros (a & Ha & _). by apply elem_of_nil in Ha.
  - destruct (art_title a) as [t|] eqn:Ht.
    + destruct (pre_filter_loop geo topic bl arts) as [kept|].
      * split; [destruct (keeps _ _ _ _ _); intros H; discriminate H|].
        intros (b & [->|Hb]%elem_of_cons & Hnone); [congruence|].
        assert (Return kept = Raise) as Habs by (apply IH; eauto). done.
      * split; [|done]. intros _. destruct IH as [IH _].
        destruct (IH eq_refl) as (b & Hb & Hnone).
        exists b. split; [by right|done].
    + split; [|done]. intros _. exists a. split; [by left|done].
Qed.

Lemma pre_filter_loop_kept geo topic bl arts kept :
  pre_filter_loop geo topic bl arts = Return kept →
  kept `sublist_of` arts
  ∧ Forall (λ a, ∃ t, art_title a = Some t
                      ∧ keeps geo topic bl (Py.lower t)
                          (Py.lower (art_content a)) = true) kept.
Proof.
  revert kept. induction arts as [|a arts IH]; intros kept;
    cbn [pre_filter_loop].
  - intros [= <-]. split; [done|constructor].
  - destruct (art_title a) as [t|] eqn:Ht; [|done].
    destruct (pre_filter_loop geo topic bl arts) as [kept0|]; [|done].
    destruct (IH kept0 eq_refl) as [Hsub Hall].
    destruct (keeps _ _ _ _ _) eqn:Hk; intros [= <-].
    + split; [by apply sublist_skip|]. constructor; [eauto|done].
    + split; [by apply sublist_cons|done].
Qed.

Lemma pre_filter_raises_null_aux arts bi :
  (∃ a, a ∈ arts ∧ art_title a = None) →
  pre_filter_articles arts bi = Raise.
Proof.
  unfold pre_filter_articles. destruct arts as [|a arts].
  - intros (a & Ha & _). by apply elem_of_nil in Ha.
  - apply pre_filter_loop_raise.
Qed.

(** The pre-filter raises exactly when one of the articles has a null
    title; otherwise it returns. *)
Theorem pre_filter_raises_iff_null_title arts bi :
  pre_filter_articles arts bi = Raise ↔ ∃ a, a ∈ arts ∧ art_title a = None.
Proof.
  unfold pre_filter_articles. destruct arts as [|a arts].
  - split; [done|]. intros (a & Ha & _). by apply elem_of_nil in Ha.
  - apply pre_filter_loop_raise.
Qed.

(** The pre-filter only removes articles: what it keeps is a
    subsequence of its input, in the same order. *)
Theorem pre_filter_keeps_order arts bi kept :
  pre_filter_articles arts bi = Return kept → kept `sublist_of` arts.
Proof.
  unfold pre_filter_articles. destruct arts as [|a arts].
  - by intros [= <-].
  - intros H. by apply pre_filter_loop_kept in H as [? _].
Qed.

(** The geographic gate is hard: when the business interest names one of
    the known regions, every article kept mentions one of the derived
    keywords in its lowered title or in the first 500 characters of its
    lowered content. *)
Theorem pre_filter_geographic_gate arts bi kept :
  geographic_keywords (Py.lower bi) ≠ [] →
  pre_filter_articles arts bi = Return kept →
  Forall (λ a, ∃ t, art_title a = Some t
                    ∧ mentions (geographic_keywords (Py.lower bi))
                        (Py.lower t) (Py.take 500 (Py.lower (art_content a)))
                      = true) kept.
Proof.
  intros Hgeo. unfold pre_filter_articles. destruct arts as [|a arts].
  - intros [= <-]. constructor.
  - intros H. apply pre_filter_loop_kept in H as [_ Hall].
    eapply Forall_impl; [exact Hall|]. intros b (t & Ht & Hk).
    exists t. split; [done|]. unfold keeps in Hk.
    destruct (_ && negb (existsb _ _)); [done|].
    destruct (geographic_keywords (Py.lower bi)) as [|g gs]; [done|].
    destruct (mentions (g :: gs) _ _) eqn:Hm; [done|].
    by simpl in Hk.
Qed.

(** Unless the business interest itself mentions sport, entertainment,
    football, movie or music, no article kept mentions a sports or an
    entertainment keyword in its lowered title or in the first 200
    characters of its lowered content. *)
Theorem pre_filter_sports_gate arts bi kept :
  existsb (λ k, Py.contains k (Py.lower bi))
    ["sport"; "entertainment"; "football"; "movie"; "music"] = false →
  pre_filter_articles arts bi = Return kept →
  Forall (λ a, ∃ t, art_title a = Some t
                    ∧ mentions (sports_keywords ++ entertainment_keywords)
                        (Py.lower t) (Py.take 200 (Py.lower (art_content a)))
                      = false) kept.
Proof.
  intros Hbi. unfold pre_filter_articles. destruct arts as [|a arts].
  - intros [= <-]. constructor.
  - intros H. apply pre_filter_loop_kept in H as [_ Hall].
    eapply Forall_impl; [exact Hall|]. intros b (t & Ht & Hk).
    exists t. split; [done|]. unfold keeps in Hk. rewrite Hbi in Hk.
    unfold mentions in *. rewrite existsb_app.
    by destruct (existsb _ sports_keywords), (existsb _ entertainment_keywords).
Qed.

End PreFilterFacts.

Lemma pre_filter_raises_iff_null_title_witness :
  Pipeline.pre_filter_articles [Samples.untitled_article] "markets" = Raise.
Proof.
  apply (pre_filter_raises_iff_null_title [Samples.untitled_article] "markets").
  exists Samples.untitled_article. split; [by left|reflexivity].
Defined.

Lemma pre_filter_keeps_order_witness :
  [Samples.doha_article]
    `sublist_of` [Samples.sample_article; Samples.doha_article].
Proof.
  apply (pre_filter_keeps_order
           [Samples.sample_article; Samples.doha_article] "Qatar").
  vm_compute. reflexivity.
Defined.

Lemma pre_filter_geographic_gate_witness :
  Forall (λ a, ∃ t, art_title a = Some t
                    ∧ Pipeline.mentions
                        (Pipeline.geographic_keywords (Py.lower "Qatar"))
                        (Py.lower t) (Py.take 500 (Py.lower (art_content a)))
                      = true)
    [Samples.doha_article].
Proof.
  apply (pre_filter_geographic_gate
           [Samples.sample_article; Samples.doha_article] "Qatar").
  - vm_compute. discriminate.
  - vm_compute. reflexivity.
Defined.

Lemma pre_filter_sports_gate_witness :
  Forall (λ a, ∃ t, art_title a = Some t
                    ∧ Pipeline.mentions
                        (Pipeline.sports_keywords
                           ++ Pipeline.entertainment_keywords)
                        (Py.lower t) (Py.take 200 (Py.lower (art_content a)))
                      = false)
    [Samples.doha_article].
Proof.
  apply (pre_filter_sports_gate
           [Samples.sample_article; Samples.doha_article] "Qatar").
  - vm_compute. reflexivity.
  - vm_compute. reflexivity.
Defined.

Section BatchFacts.

Import Pipeline.

Variable relevance_llm : nat → string → string → Reply.

Lemma chunks_concat {A} (l : list A) (s k : nat) :
  concat ((λ i, take BATCH_SIZE (drop i l))
            <$> ((λ q, q * BATCH_SIZE)%nat <$> seq s k))
  = take (k * BATCH_SIZE) (drop (s * BATCH_SIZE) l).
Proof.
  revert s. induction k as [|k IH]; intros s; [done|].
  cbn [seq fmap list_fmap concat]. rewrite IH.
  replace (S s * BATCH_SIZE)%nat with (s * BATCH_SIZE + BATCH_SIZE)%nat by lia.
  rewrite <- drop_drop.
  replace (S k * BATCH_SIZE)%nat with (BATCH_SIZE + k * BATCH_SIZE)%nat by lia.
  by rewrite take_take_drop.
Qed.

Lemma batches_of_facts arts :
  concat (batches_of arts) = arts
  ∧ Forall (λ b, (1 ≤ length b ≤ BATCH_SIZE)%nat) (batches_of arts)
  ∧ length (batches_of arts) = ((length arts + 4) / 5)%nat.
Proof.
  unfold batches_of, py_range_step.
  assert ((length arts + BATCH_SIZE - 1) / BATCH_SIZE
          = (length arts + 4) / 5)%nat as Hk by (unfold BATCH_SIZE; f_equal; lia).
  split_and!.
  - rewrite chunks_concat. simpl drop. apply take_ge.
    rewrite Hk. unfold BATCH_SIZE.
    pose proof (Nat.div_mod_eq (length arts + 4) 5).
    pose proof (Nat.mod_upper_bound (length arts + 4) 5). lia.
  - apply Forall_fmap, Forall_fmap, Forall_forall. intros q Hq.
    apply elem_of_seq in Hq. simpl. rewrite Hk in Hq.
    rewrite length_take, length_drop. unfold BATCH_SIZE.
    pose proof (Nat.div_mod_eq (length arts + 4) 5).
    pose proof (Nat.mod_upper_bound (length arts + 4) 5). lia.
  - by rewrite !length_fmap, length_seq.
Qed.

(** The batches partition the article list: put end to end they give it
    back, in order; every batch has at least one and at most five
    articles, and there is one batch for every five articles, rounded
    up. *)
Theorem batches_partition arts :
  concat (batches_of arts) = arts
  ∧ Forall (λ b, (1 ≤ length b ≤ BATCH_SIZE)%nat) (batches_of arts)
  ∧ length (batches_of arts) = ((length arts + 4) / 5)%nat.
Proof. apply batches_of_facts. Qed.

Lemma collect_votes_sublist batch j lines acc :
  ∃ extra, (collect_votes batch j lines acc).1 = acc ++ extra
           ∧ extra `sublist_of` drop j batch.
Proof.
  revert j acc. induction lines as [|line lines IH]; intros j acc;
    cbn [collect_votes].
  - exists []. split; [by rewrite app_nil_r|apply sublist_nil_l].
  - assert (drop (S j) batch `sublist_of` drop j batch) as Hstep.
    { replace (S j) with (j + 1)%nat by lia.
      rewrite <- drop_drop. apply sublist_drop. }
    destruct (batch !! j) as [a|] eqn:Hj.
    + destruct (Py.contains "Yes" (Py.strip line)).
      * destruct (5 <=? length (acc ++ [a]))%nat.
        -- exists [a]. split; [done|].
           rewrite (drop_S _ _ _ Hj). apply sublist_skip, sublist_nil_l.
        -- destruct (IH (S j) (acc ++ [a])) as (extra & -> & Hsub).
           exists (a :: extra). split; [by rewrite <- app_assoc|].
           rewrite (drop_S _ _ _ Hj). by apply sublist_skip.
      * destruct (IH (S j) acc) as (extra & -> & Hsub).
        exists extra. split; [done|]. by etrans.
    + destruct (IH (S j) acc) as (extra & -> & Hsub).
      exists extra. split; [done|]. by etrans.
Qed.

Lemma filter_batches_sublist bi n batches acc :
  ∃ extra, (filter_batches relevance_llm bi n batches acc).1 = acc ++ extra
           ∧ extra `sublist_of` concat batches.
Proof.
  revert n acc. induction batches as [|b batches IH]; intros n acc;
    cbn [filter_batches concat].
  - exists []. split; [by rewrite app_nil_r|done].
  - destruct (relevance_llm n bi (articles_text b)) as [|[|] content].
    + destruct (IH (S n) acc) as (extra & He & Hsub).
      destruct (filter_batches relevance_llm bi (S n) batches acc).
      simpl in *. exists extra. split; [done|].
      by apply sublist_inserts_l.
    + destruct (collect_votes_sublist b 0
                  (Py.split Py.newline (Py.strip content)) acc)
        as (e1 & He1 & Hs1).
      destruct (collect_votes _ _ _ _) as [acc' returned]. simpl in He1.
      subst acc'. destruct returned.
      * exists e1. split; [done|].
        rewrite <- (app_nil_r e1). by apply sublist_app; [|apply sublist_nil_l].
      * destruct (IH (S n) (acc ++ e1)) as (e2 & He2 & Hs2).
        destruct (filter_batches relevance_llm bi (S n) batches (acc ++ e1)).
        simpl in *. exists (e1 ++ e2). split; [by rewrite app_assoc|].
        by apply sublist_app.
    + destruct (IH (S n) acc) as (extra & He & Hsub).
      destruct (filter_batches relevance_llm bi (S n) batches acc).
      simpl in *. exists extra. split; [done|].
      by apply sublist_inserts_l.
Qed.

(** The relevant articles are a subsequence of the articles given: each
    at most once, in the order of the input, and none that was not in
    it, whatever the replies say. *)
Theorem relevant_articles_keep_order arts bi :
  (batch_filter_articles relevance_llm arts bi).1 `sublist_of` arts.
Proof.
  unfold batch_filter_articles. destruct arts as [|a arts]; [done|].
  destruct (filter_batches_sublist bi 0 (batches_of (a :: arts)) [])
    as (extra & -> & Hsub).
  destruct (batches_of_facts (a :: arts)) as [Hc _].
  by rewrite Hc in Hsub.
Qed.

Lemma filter_batches_calls_prefix bi n batches acc :
  (filter_batches relevance_llm bi n batches acc).2
  `prefix_of` (λ b, RelevanceCall bi (articles_text b)) <$> batches.
Proof.
  revert n acc. induction batches as [|b batches IH]; intros n acc;
    cbn [filter_batches fmap list_fmap].
  - done.
  - destruct (relevance_llm n bi (articles_text b)) as [|[|] content].
    + specialize (IH (S n) acc).
      destruct (filter_batches relevance_llm bi (S n) batches acc).
      by apply prefix_cons.
    + destruct (collect_votes _ _ _ _) as [acc' returned].
      destruct returned; [apply prefix_cons, prefix_nil|].
      specialize (IH (S n) acc').
      destruct (filter_batches relevance_llm bi (S n) batches acc').
      by apply prefix_cons.
    + specialize (IH (S n) acc).
      destruct (filter_batches relevance_llm bi (S n) batches acc).
      by apply prefix_cons.
Qed.

(** The calls of the relevance stage are the prompts of the batches, in
    order, up to the batch at which it stops: no batch is sent twice, and
    there are at most as many calls as there are batches. *)
Theorem relevance_calls_follow_batches arts bi :
  (batch_filter_articles relevance_llm arts bi).2
  `prefix_of` (λ b, RelevanceCall bi (articles_text b)) <$> batches_of arts
  ∧ (length (batch_filter_articles relevance_llm arts bi).2
     ≤ (length arts + 4) / 5)%nat.
Proof.
  assert ((batch_filter_articles relevance_llm arts bi).2
          `prefix_of` (λ b, RelevanceCall bi (articles_text b))
                        <$> batches_of arts) as Hp.
  { unfold batch_filter_articles. destruct arts as [|a arts];
      [apply prefix_nil|apply filter_batches_calls_prefix]. }
  split; [done|].
  apply prefix_length in Hp. rewrite length_fmap in Hp.
  destruct (batches_of_facts arts) as (_ & _ & Hlen). lia.
Qed.

Lemma filter_batches_down bi n batches acc :
  (∀ m t c, relevance_llm m bi t ≠ Replied true c) →
  filter_batches relevance_llm bi n batches acc
  = (acc, (λ b, RelevanceCall bi (articles_text b)) <$> batches).
Proof.
  intros Hdown. revert n. induction batches as [|b batches IH]; intros n;
    cbn [filter_batches fmap list_fmap]; [done|].
  destruct (relevance_llm n bi (articles_text b)) as [|[|] content] eqn:Hr.
  - by rewrite IH.
  - by apply Hdown in Hr.
  - by rewrite IH.
Qed.

(** A failing collaborator does not stop the stage: when no call ever
    yields an [AIMessage] (it raises, or returns something else), every
    batch is still sent, one call each, and no article is relevant. *)
Theorem relevance_survives_failures arts bi :
  (∀ m t c, relevance_llm m bi t ≠ Replied true c) →
  batch_filter_articles relevance_llm arts bi
  = ([], (λ b, RelevanceCall bi (articles_text b)) <$> batches_of arts).
Proof.
  intros Hdown. unfold batch_filter_articles. destruct arts as [|a arts].
  - done.
  - by apply filter_batches_down.
Qed.

End BatchFacts.

Lemma relevance_survives_failures_witness :
  Pipeline.batch_filter_articles Samples.failing_llm
    (Samples.numbered_article <$> seq 1 12) "markets"
  = ([], (λ b, Pipeline.RelevanceCall "markets" (Pipeline.articles_text b))
           <$> Pipeline.batches_of (Samples.numbered_article <$> seq 1 12)).
Proof.
  apply (relevance_survives_failures Samples.failing_llm
           (Samples.numbered_article <$> seq 1 12) "markets").
  intros m t c. discriminate.
Defined.

Section SummaryFacts.

Import Pipeline.

Variable relevance_llm : nat → string → string → Reply.
Variable summary_llm : nat → string → string → Reply.
Variable spider : list (list string) → Scraper.Outcome.

Lemma split_without_separator c s :
  Py.contains (String c EmptyString) s = false → Py.split c s = [s].
Proof.
  induction s as [|a s IH]; [done|].
  cbn [Py.contains Py.split]. rewrite (prefix_cons_eq c a).
  destruct (ascii_dec c a) as [->|Hne].
  - by destruct s.
  - intros Hs. rewrite (proj2 (Ascii.eqb_neq a c)) by congruence.
    by rewrite (IH Hs).
Qed.

(** Without a full stop in the content, the fallback summary is the
    whole content followed by a full stop, whatever its length. *)
Theorem fallback_without_full_stop content :
  Py.contains "." content = false →
  fallback_summary content = content +:+ ".".
Proof.
  intros H. rewrite fallback_summary_joins.
  by rewrite (split_without_separator _ _ H).
Qed.

(** When none of the relevant articles has 100 characters of content,
    the summary is the second fixed message and no call is made. *)
Theorem short_articles_give_second_sentinel st :
  relevant_articles st ≠ [] →
  Forall (λ a, (String.length (art_content a) < 100)%nat) (relevant_articles st) →
  summarize_articles_async summary_llm st
  = (set_summary NO_ARTICLES_AFTER_FILTER st, []).
Proof.
  intros Hne Hshort. unfold summarize_articles_async.
  destruct (relevant_articles st) as [|a arts] eqn:Hrel; [done|].
  assert (filter (λ a, ¬ (String.length (art_content a) < 100)%nat) (a :: arts)
          = []) as ->; [|done].
  clear Hne Hrel. induction Hshort as [|b bs Hb _ IH]; [done|].
  by rewrite filter_cons_False by tauto.
Qed.

Lemma article_blocks_calls n i arts :
  Forall (λ a, ¬ (String.length (art_content a) < 100)%nat) arts →
  (article_blocks summary_llm n i arts).2 = summary_call_of <$> arts.
Proof.
  intros Hlong. revert n i. induction Hlong as [|a arts Ha _ IH]; intros n i;
    cbn [article_blocks]; [done|].
  assert (Py.truthy (art_content a) = true) as Ht.
  { destruct (art_content a); [simpl in Ha; lia|done]. }
  unfold article_block. rewrite Ht.
  destruct (summary_llm n _ _) as [|ai reply];
    cbn [length]; specialize (IH (n + 1)%nat (S i));
    destruct (article_blocks summary_llm (n + 1) (S i) arts) as [ls cs];
    simpl in *; by rewrite IH.
Qed.

Lemma summarize_calls st :
  (summarize_articles_async summary_llm st).2
  = summary_call_of
      <$> filter (λ a, ¬ (String.length (art_content a) < 100)%nat)
            (relevant_articles st).
Proof.
  unfold summarize_articles_async.
  destruct (relevant_articles st) as [|a arts]; [done|].
  destruct (filter _ (a :: arts)) as [|b kept] eqn:Hf; [done|].
  pose proof (article_blocks_calls 0 1 (b :: kept)) as Hc.
  destruct (article_blocks summary_llm 0 1 (b :: kept)) as [ls cs].
  simpl in *. apply Hc. rewrite <- Hf.
  apply Forall_forall. intros x Hx. by apply list_elem_of_filter in Hx as [? _].
Qed.

(** One summary call is made for every relevant article of at least 100
    characters, in order, with the title and the first 2000 characters of
    the content; a call that fails changes nothing to the calls that
    follow. *)
Theorem one_summary_call_per_kept_article st :
  (summarize_articles_async summary_llm st).2
  = summary_call_of
      <$> filter (λ a, ¬ (String.length (art_content a) < 100)%nat)
            (relevant_articles st).
Proof. apply summarize_calls. Qed.

(** A run never launches more than five summary calls: its calls are the
    relevance calls of the filter stage followed by at most five summary
    calls. *)
Theorem run_calls_shape bi srcs e :
  ∃ rel_calls sum_calls,
    run_calls (get_news_async relevance_llm summary_llm spider bi srcs e)
    = rel_calls ++ sum_calls
    ∧ Forall (λ c, ∃ t, c = RelevanceCall bi t) rel_calls
    ∧ Forall (λ c, ∃ t x, c = SummaryCall t x) sum_calls
    ∧ (length sum_calls ≤ 5)%nat.
Proof.
  unfold get_news_async.
  pose proof (preprocess_interest spider (mkMyState bi srcs [] [] "" None) e)
    as Hbi.
  destruct (preprocess _ _ _) as [st1 e1]. simpl in Hbi.
  destruct (filter_articles_async relevance_llm st1) as [[st2|] calls] eqn:Hf.
  - pose proof (filter_articles_async_calls _ _ _ _ Hf) as Hrel.
    rewrite Hbi in Hrel.
    pose proof (filter_articles_async_cap _ _ _ _ Hf) as Hcap.
    pose proof (summarize_calls st2) as Hs.
    destruct (summarize_articles_async summary_llm st2) as [st3 calls'].
    simpl in *. exists calls, calls'. split_and!; [done|done| |].
    + rewrite Hs. apply Forall_fmap, Forall_forall. intros a _.
      unfold summary_call_of. simpl. eauto.
    + rewrite Hs, length_fmap.
      etrans; [apply length_filter|done].
  - pose proof (filter_articles_async_calls _ _ _ _ Hf) as Hrel.
    rewrite Hbi in Hrel. simpl.
    exists calls, []. rewrite app_nil_r.
    split; [done|]. split; [done|]. split; [constructor|simpl; lia].
Qed.

(** A run never empties the scraper cache: the pipeline does not set the
    force-fresh flag, so every entry the cache held before a run is still
    there after it. *)
Theorem run_keeps_cache bi srcs e key arts :
  Scraper.cache_lookup key e = Some arts →
  Scraper.cache_lookup key
    (run_env (get_news_async relevance_llm summary_llm spider bi srcs e))
  = Some arts.
Proof.
  intros Hk. unfold get_news_async, preprocess. simpl.
  pose proof (run_scraper_keeps spider key srcs e arts Hk) as Hkeep.
  destruct (Scraper.run_scraper spider srcs false e) as [res e1].
  simpl in *.
  destruct (filter_articles_async relevance_llm _) as [[st2|] calls]; [|done].
  by destruct (summarize_articles_async summary_llm st2).
Qed.

(** An article with a null title among the scraped articles makes the
    run raise in the filter stage, before any collaborator call. *)
Theorem null_title_aborts_run bi srcs e arts :
  (Scraper.run_scraper spider srcs false e).1 = Return arts →
  (∃ a, a ∈ arts ∧ art_title a = None) →
  run_summary (get_news_async relevance_llm summary_llm spider bi srcs e) = Raise
  ∧ run_calls (get_news_async relevance_llm summary_llm spider bi srcs e) = [].
Proof.
  intros Hrun Hnull. unfold get_news_async, preprocess. simpl.
  destruct (Scraper.run_scraper spider srcs false e) as [res e1].
  simpl in Hrun. subst res. unfold filter_articles_async. simpl.
  destruct arts as [|a arts].
  { destruct Hnull as (a & Ha & _). by apply elem_of_nil in Ha. }
  apply (pre_filter_raises_null_aux (a :: arts) bi) in Hnull.
  by rewrite Hnull.
Qed.

(** When the scraper raises or returns no article, the run returns the
    fixed "no relevant information" message without any collaborator
    call. *)
Theorem empty_scrape_gives_sentinel bi srcs e :
  (Scraper.run_scraper spider srcs false e).1 = Raise
  ∨ (Scraper.run_scraper spider srcs false e).1 = Return [] →
  run_summary (get_news_async relevance_llm summary_llm spider bi srcs e)
  = Return NO_RELEVANT
  ∧ run_calls (get_news_async relevance_llm summary_llm spider bi srcs e) = [].
Proof.
  intros Hrun. unfold get_news_async, preprocess. simpl.
  destruct (Scraper.run_scraper spider srcs false e) as [res e1].
  simpl in Hrun. by destruct Hrun as [-> | ->].
Qed.

End SummaryFacts.

Lemma fallback_without_full_stop_witness :
  Pipeline.fallback_summary "Rates rose" = "Rates rose" +:+ ".".
Proof.
  apply (fallback_without_full_stop "Rates rose"). reflexivity.
Defined.

Lemma short_articles_give_second_sentinel_witness :
  Pipeline.summarize_articles_async Samples.flaky_llm
    (Pipeline.mkMyState "markets" [] [] [Samples.sample_article] "" None)
  = (Pipeline.set_summary Pipeline.NO_ARTICLES_AFTER_FILTER
       (Pipeline.mkMyState "markets" [] [] [Samples.sample_article] "" None),
     []).
Proof.
  apply (short_articles_give_second_sentinel Samples.flaky_llm
           (Pipeline.mkMyState "markets" [] [] [Samples.sample_article] "" None)).
  - discriminate.
  - constructor; [vm_compute; lia|constructor].
Defined.

Lemma run_keeps_cache_witness :
  Scraper.cache_lookup ["b.com"]
    (Pipeline.run_env
       (Pipeline.get_news_async Samples.reluctant_llm Samples.flaky_llm
          Samples.growing_spider "markets" ["a.com"] Samples.env_with_b))
  = Some [Samples.sample_article].
Proof.
  apply (run_keeps_cache Samples.reluctant_llm Samples.flaky_llm
           Samples.growing_spider "markets" ["a.com"] Samples.env_with_b).
  vm_compute. reflexivity.
Defined.

Lemma null_title_aborts_run_witness :
  Pipeline.run_summary
    (Pipeline.get_news_async Samples.eager_llm Samples.flaky_llm
       Samples.untitled_spider "markets" ["a.com"] Samples.fresh_env) = Raise
  ∧ Pipeline.run_calls
      (Pipeline.get_news_async Samples.eager_llm Samples.flaky_llm
         Samples.untitled_spider "markets" ["a.com"] Samples.fresh_env) = [].
Proof.
  apply (null_title_aborts_run Samples.eager_llm Samples.flaky_llm
           Samples.untitled_spider "markets" ["a.com"] Samples.fresh_env
           [Samples.untitled_article]).
  - vm_compute. reflexivity.
  - exists Samples.untitled_article. split; [by left|reflexivity].
Defined.

Lemma empty_scrape_gives_sentinel_witness :
  Pipeline.run_summary
    (Pipeline.get_news_async Samples.eager_llm Samples.flaky_llm
       Samples.crashing_spider "markets" ["a.com"] Samples.fresh_env)
  = Return Pipeline.NO_RELEVANT
  ∧ Pipeline.run_calls
      (Pipeline.get_news_async Samples.eager_llm Samples.flaky_llm
         Samples.crashing_spider "markets" ["a.com"] Samples.fresh_env) = [].
Proof.
  apply (empty_scrape_gives_sentinel Samples.eager_llm Samples.flaky_llm
           Samples.crashing_spider "markets" ["a.com"] Samples.fresh_env).
  left. reflexivity.
Defined.

(** * Properties of the report parser *)

Section ReportFacts.

Import Report.

Variable now_iso : nat → string.
Variable netloc : string → option string.

Lemma finish_length p :
  length (finish p)
  = (length (parsed p)
     + match current_article p with Some _ => 1 | None => 0 end)%nat.
Proof.
  unfold finish. destruct (current_article p); [|lia].
  rewrite length_app. simpl. lia.
Qed.

(** A line that is not a header neither appends an article nor starts
    one. *)
Lemma step_other l p :
  Py.startswith HEADER (Py.strip l) = false →
  parsed (step now_iso netloc l p) = parsed p
  ∧ ticks (step now_iso netloc l p) = ticks p
  ∧ (current_article (step now_iso netloc l p) = None
     ↔ current_article p = None).
Proof.
  intros Hh. unfold step. rewrite Hh.
  destruct (current_article p) as [a|] eqn:Hc; [|by rewrite Hc].
  repeat (match goal with
          | |- context [if ?b then _ else _] => destruct b
          end; simpl; rewrite ?Hc; try done).
Qed.

Lemma step_header l p :
  Py.startswith HEADER (Py.strip l) = true →
  length (finish (step now_iso netloc l p)) = S (length (finish p)).
Proof.
  intros Hh. rewrite !finish_length. unfold step. rewrite Hh. simpl.
  destruct (current_article p); rewrite ?length_app; simpl; lia.
Qed.

Lemma steps_count lines p :
  length (finish (steps now_iso netloc lines p))
  = (length (finish p)
     + length (filter (λ l, Py.startswith HEADER (Py.strip l) = true) lines))%nat.
Proof.
  revert p. induction lines as [|l lines IH]; intros p; cbn [steps].
  - simpl. lia.
  - rewrite IH. destruct (Py.startswith HEADER (Py.strip l)) eqn:Hh.
    + rewrite filter_cons_True by done. rewrite (step_header _ _ Hh).
      simpl. lia.
    + rewrite filter_cons_False by (by rewrite Hh).
      destruct (step_other l p Hh) as (Hp & _ & Hc).
      rewrite !finish_length, Hp.
      destruct (current_article p), (current_article (step now_iso netloc l p));
        try done; exfalso; naive_solver.
Qed.

(** The parser returns one article per header line of the report; a
    non-empty report without any header line gives one article, and the
    empty report none. *)
Theorem report_article_count text :
  length (parse_report now_iso netloc text)
  = if Py.truthy text then Nat.max 1 (length (header_lines text)) else 0%nat.
Proof.
  unfold parse_report, header_lines. destruct (Py.truthy text); [|done].
  pose proof (steps_count (Py.split Py.newline text)
                (mkParser None false [] [] 0)) as Hc.
  simpl in Hc.
  destruct (finish (steps now_iso netloc _ _)) as [|a arts]; simpl in *; lia.
Qed.

Lemma steps_idle lines p :
  current_article p = None →
  Forall (λ l, Py.startswith HEADER (Py.strip l) = false) lines →
  steps now_iso netloc lines p = p.
Proof.
  intros Hc Hall. induction Hall as [|l lines Hl _ IH]; [done|].
  cbn [steps]. assert (step now_iso netloc l p = p) as ->; [|done].
  unfold step. by rewrite Hl, Hc.
Qed.

(** A non-empty report in which no line is a header comes back as a
    single article titled "News Analysis Summary" whose content is the
    whole report. *)
Theorem report_without_header_is_one_article text :
  Py.truthy text = true →
  header_lines text = [] →
  parse_report now_iso netloc text = [fallback_article now_iso text 0].
Proof.
  intros Ht Hh. unfold parse_report. rewrite Ht.
  rewrite steps_idle; [done|done|].
  unfold header_lines in Hh. apply Forall_forall. intros l Hl.
  destruct (Py.startswith HEADER (Py.strip l)) eqn:Hs; [|done].
  assert (l ∈ @nil string) as Habs; [|by apply elem_of_nil in Habs].
  rewrite <- Hh. by apply list_elem_of_filter.
Qed.

(** The lines that close every report with articles (a blank line, the
    divider, a blank line and the footer) leave the footer in the content
    of the last article: the footer begins with a single star, which the
    parser does not take for markup, so it is collected as a summary
    line. *)
Theorem footer_joins_last_summary p a :
  current_article p = Some a →
  collecting_summary p = true →
  finish (steps now_iso netloc
            [""; "---"; ""; "*Generated by News Analyzer*"] p)
  = parsed p
    ++ [flush a (summary_lines p ++ ["*Generated by News Analyzer*"])].
Proof.
  intros Hc Hs. destruct p as [cur coll ls done n]. simpl in *. subst.
  reflexivity.
Qed.

End ReportFacts.

Lemma report_without_header_is_one_article_witness :
  Report.parse_report Samples.frozen_clock Crawl.netloc Pipeline.NO_RELEVANT
  = [Report.fallback_article Samples.frozen_clock Pipeline.NO_RELEVANT 0].
Proof.
  apply (report_without_header_is_one_article Samples.frozen_clock
           Crawl.netloc Pipeline.NO_RELEVANT).
  - reflexivity.
  - vm_compute. reflexivity.
Defined.

Lemma footer_joins_last_summary_witness :
  Report.finish
    (Report.steps Samples.frozen_clock Crawl.netloc
       [""; "---"; ""; "*Generated by News Analyzer*"]
       (Report.mkParser (Some (Report.blank_article Samples.frozen_clock 0))
          true ["Prices fell."] [] 1))
  = [] ++ [Report.flush (Report.blank_article Samples.frozen_clock 0)
             (["Prices fell."] ++ ["*Generated by News Analyzer*"])].
Proof.
  apply (footer_joins_last_summary Samples.frozen_clock Crawl.netloc
           (Report.mkParser (Some (Report.blank_article Samples.frozen_clock 0))
              true ["Prices fell."] [] 1)
           (Report.blank_article Samples.frozen_clock 0)); reflexivity.
Defined.

(** The report of two summarised articles, parsed back: the footer of
    the report ends up in the content of the last article. *)
Example report_parsed_back :
  (λ a, (Report.api_title a, Report.api_url a, Report.api_source a,
         Report.api_content a))
  <$> Report.parse_report Samples.frozen_clock Crawl.netloc
        (Pipeline.summary
           (Pipeline.summarize_articles_async Samples.flaky_llm
              (Pipeline.mkMyState "markets" [] []
                 [Samples.unpunctuated_article; Samples.numbered_article 2]
                 "" None)).1)
  = [ ("Ticker", "https://example.com/article/7", "example.com",
       Py.repeat_char "a" 300 +:+ ".");
      ("Report 2", "https://example.com/article/2", "example.com",
       "Prices fell. *Generated by News Analyzer*") ].
Proof. vm_compute. reflexivity. Qed.

(** The section page of the sample site, requested from the front page
    and found again on a later page. *)
Lemma followups_never_repeat_witness :
  NoDup (Crawl.followup_urls
           (Crawl.run Crawl.netloc
              [Samples.home_page; Samples.world_page_again; Samples.home_page]
              Spider.init).1)
  ∧ (Samples.world_url ∉ Spider.processed_urls Spider.init)
  ∧ (Samples.world_url
     ∈ Spider.processed_urls
         (Crawl.run Crawl.netloc
            [Samples.home_page; Samples.world_page_again; Samples.home_page]
            Spider.init).2).
Proof.
  destruct (followups_never_repeat Crawl.netloc
              [Samples.home_page; Samples.world_page_again; Samples.home_page]
              Spider.init) as [Hnd Hin].
  split; [exact Hnd|]. apply Hin.
  apply (bool_decide_unpack _). vm_compute. exact I.
Defined.
